(** * pyvscpudp: the VSCP UDP frame builder and encryption wrapper

    A shallow embedding of [vscpudp/udp.py] (functions [makeVscpFrame] and
    [encryptVscpFrame]) and the properties of its frames.

    Conventions of the embedding.
    - Python integers are [Z]; [>>] is [Z.shiftr], [&] is [Z.land], [%] is
      [Z.modulo] (both round towards minus infinity for a positive divisor).
    - A [bytearray] is a [list Z] whose elements are in [0, 256); item
      assignment and item access raise as Python does.
    - A raised exception is the [Raise] case of [result].
    - The names the module uses without importing them ([vscpEventEx],
      [VSCP_DEFAULT_KEY16], [binascii], ...) are read as the items of the
      [vscp] module and of the Python standard library that they name.
    - The module is read as Python 3 with the Crypto package of
      PyCryptodome: [str] of a bytearray is text, not bytes, and the
      cipher refuses text. *)

From Stdlib Require Import ZArith List String Ascii Lia Bool.
From Equations Require Import Equations.
From stdpp Require Import base list.
Import ListNotations.

Local Open Scope Z_scope.

(** ** Exceptions and results *)

Inductive exn : Type :=
| ValueError (msg : string)
| IndexError (msg : string)
| BinasciiError (msg : string)
| TypeError (msg : string).

Inductive result (A : Type) : Type :=
| Ok (a : A)
| Raise (e : exn).

Arguments Ok {A} a.
Arguments Raise {A} e.

Definition bind {A B : Type} (r : result A) (k : A -> result B) : result B :=
  match r with
  | Ok a => k a
  | Raise e => Raise e
  end.

Notation "'do' x <- r ; k" := (bind r (fun x => k))
  (at level 10, x name, r at level 100, k at level 200).

(** ** Python sequences *)

Module py.

(** [bytearray(n)]: [n] zero bytes; a negative count is refused. *)
Definition bytearray (n : Z) : result (list Z) :=
  if n <? 0 then Raise (ValueError "negative count")
  else Ok (replicate (Z.to_nat n) 0).

Definition len (l : list Z) : Z := Z.of_nat (length l).

(** An index counted from the end when negative. *)
Definition norm_index (l : list Z) (i : Z) : Z :=
  if i <? 0 then i + len l else i.

Definition in_range (l : list Z) (i : Z) : bool :=
  (0 <=? norm_index l i) && (norm_index l i <? len l).

(** [seq[i]] on a list, tuple or ctypes array. *)
Definition getitem (l : list Z) (i : Z) : result Z :=
  if in_range l i then
    match l !! Z.to_nat (norm_index l i) with
    | Some x => Ok x
    | None => Raise (IndexError "index out of range")
    end
  else Raise (IndexError "index out of range").

(** [frame[i] = v] on a bytearray: the value must be a byte and the index
    in range. *)
Definition setitem (l : list Z) (i v : Z) : result (list Z) :=
  if (0 <=? v) && (v <? 256) then
    if in_range l i then Ok (<[Z.to_nat (norm_index l i) := v]> l)
    else Raise (IndexError "bytearray index out of range")
  else Raise (ValueError "byte must be in range(0, 256)").

(** [l[lo:hi]] for bounds that are not negative (all the slices of the
    module are of this kind); the bounds are clipped to the length. *)
Definition slice (l : list Z) (lo hi : Z) : list Z :=
  take (Z.to_nat (hi - lo)) (drop (Z.to_nat lo) l).

(** [for i in items: body], threading the loop's state. *)
Fixpoint for_in {S : Type} (items : list Z) (body : Z -> S -> result S) (s : S)
  : result S :=
  match items with
  | [] => Ok s
  | i :: rest => do s' <- body i s ; for_in rest body s'
  end.

(** One upper-case hexadecimal digit. *)
Definition hex_upper (d : Z) : ascii :=
  ascii_of_nat (Z.to_nat (if d <? 10 then 48 + d else 55 + d)).

(** ['\\x{:02X}'.format(x)] for a byte [x]: the four characters backslash,
    [x] and the two hexadecimal digits of [x]. *)
Definition format_x (x : Z) : string :=
  String "\" (String "x"
    (String (hex_upper (x / 16)) (String (hex_upper (x mod 16)) EmptyString))).

(** [l[lo:]] for a bound that is not negative. *)
Definition slice_from (l : list Z) (lo : Z) : list Z := drop (Z.to_nat lo) l.

(** [''.join(parts)]. *)
Definition join (parts : list string) : string :=
  fold_right String.append EmptyString parts.

Definition ord (c : ascii) : Z := Z.of_nat (nat_of_ascii c).

End py.

(** ** PyCRC's CRCCCITT *)

Module CRCCCITT.

Definition crc_ccitt_constant : Z := 0x1021.

Definition c_ushort (x : Z) : Z := x mod 65536.

(** The inner loop of [init_crc_table], [j] rounds. *)
Fixpoint table_rounds (j : nat) (crc c : Z) : Z :=
  match j with
  | O => crc
  | S j' =>
      let crc' :=
        if Z.land (Z.lxor crc c) 0x8000 =? 0
        then c_ushort (Z.shiftl crc 1)
        else Z.lxor (c_ushort (Z.shiftl crc 1)) crc_ccitt_constant in
      table_rounds j' crc' (c_ushort (Z.shiftl c 1))
  end.

Definition crc_ccitt_table (i : Z) : Z := table_rounds 8 0 (Z.shiftl i 8).

(** The starting values of the versions ['XModem'], ['FFFF'] and ['1D0F']. *)
Definition starting_value_XModem : Z := 0x0000.
Definition starting_value_FFFF : Z := 0xffff.

(** The loop of [calculate] over the byte (or character code) sequence. *)
Definition calculate_codes (start : Z) (input : list Z) : Z :=
  fold_left
    (fun crcValue d =>
       let tmp := Z.lxor (Z.land (Z.shiftr crcValue 8) 0xff) d in
       Z.lxor (Z.land (Z.shiftl crcValue 8) 0xff00) (crc_ccitt_table tmp))
    input start.

(** [calculate] on bytes. *)
Definition calculate_bytes (start : Z) (input : list Z) : Z :=
  calculate_codes start input.

(** [calculate] on a text string: the code of each character. *)
Definition calculate_str (start : Z) (input : string) : Z :=
  calculate_codes start (map py.ord (list_ascii_of_string input)).

End CRCCCITT.

(** ** The [vscp] module: event record and wire layout *)

Module vscp.

Record vscpEventEx : Type := {
  year : Z;
  month : Z;
  day : Z;
  hour : Z;
  minute : Z;
  second : Z;
  timestamp : Z;
  head : Z;
  vscpclass : Z;
  vscptype : Z;
  guid : list Z;
  sizedata : Z;
  data : list Z
}.

(** Modelled from the spec: the offsets of the Packet Type 0 layout, which
    [vscp] declares and the wire-layout table fixes by its field sizes
    (packet type 1, head 2, timestamp 4, year 2, month to second 1 each,
    class 2, type 2, GUID 16, data size 2, then the data). *)
Definition VSCP_MULTICAST_PACKET0_HEADER_LENGTH : Z := 35.
Definition VSCP_MULTICAST_PACKET0_POS_PKTTYPE : Z := 0.
Definition VSCP_MULTICAST_PACKET0_POS_HEAD_MSB : Z := 1.
Definition VSCP_MULTICAST_PACKET0_POS_HEAD_LSB : Z := 2.
Definition VSCP_MULTICAST_PACKET0_POS_TIMESTAMP : Z := 3.
Definition VSCP_MULTICAST_PACKET0_POS_YEAR_MSB : Z := 7.
Definition VSCP_MULTICAST_PACKET0_POS_YEAR_LSB : Z := 8.
Definition VSCP_MULTICAST_PACKET0_POS_MONTH : Z := 9.
Definition VSCP_MULTICAST_PACKET0_POS_DAY : Z := 10.
Definition VSCP_MULTICAST_PACKET0_POS_HOUR : Z := 11.
Definition VSCP_MULTICAST_PACKET0_POS_MINUTE : Z := 12.
Definition VSCP_MULTICAST_PACKET0_POS_SECOND : Z := 13.
Definition VSCP_MULTICAST_PACKET0_POS_VSCP_CLASS_MSB : Z := 14.
Definition VSCP_MULTICAST_PACKET0_POS_VSCP_CLASS_LSB : Z := 15.
Definition VSCP_MULTICAST_PACKET0_POS_VSCP_TYPE_MSB : Z := 16.
Definition VSCP_MULTICAST_PACKET0_POS_VSCP_TYPE_LSB : Z := 17.
Definition VSCP_MULTICAST_PACKET0_POS_VSCP_GUID : Z := 18.
Definition VSCP_MULTICAST_PACKET0_POS_VSCP_SIZE_MSB : Z := 34.
Definition VSCP_MULTICAST_PACKET0_POS_VSCP_SIZE_LSB : Z := 35.
Definition VSCP_MULTICAST_PACKET0_POS_VSCP_DATA : Z := 36.

(** Modelled from the spec: the encryption identifiers of [vscp], the
    algorithm-identifier bytes 0, 1, 2 and 3. *)
Definition VSCP_ENCRYPTION_NONE : Z := 0.
Definition VSCP_ENCRYPTION_AES128 : Z := 1.
Definition VSCP_ENCRYPTION_AES192 : Z := 2.
Definition VSCP_ENCRYPTION_AES256 : Z := 3.

End vscp.

(** The reading of [datetime.datetime.utcnow()]. *)
Module datetime.

Record datetime : Type := {
  year : Z;
  month : Z;
  day : Z;
  hour : Z;
  minute : Z;
  second : Z
}.

End datetime.

(** The second argument of [makeVscpFrame]: any Python object, of which only
    being a [vscpEventEx] matters. *)
Inductive event_arg : Type :=
| EventEx (e : vscp.vscpEventEx)
| NotEventEx.

(** ** [makeVscpFrame] *)

Section MakeFrame.

(** The protocol's maximum payload, a constant of [vscp]. *)
Variable VSCP_LEVEL2_MAXDATA : Z.

(** The clock reading taken at line 76. *)
Variable dt : datetime.datetime.

Import vscp.

(** The test of lines 79-80: the six date and time fields are all zero. *)
Definition datetime_is_zero (e : vscpEventEx) : bool :=
  (0 =? e.(year)) && (0 =? e.(month)) && (0 =? e.(day)) &&
  (0 =? e.(hour)) && (0 =? e.(minute)) && (0 =? e.(second)).

(** Lines 78-95: the date and time block. *)
Definition write_datetime (frame : list Z) (e : vscpEventEx) : result (list Z) :=
  if datetime_is_zero e then
    do frame <- py.setitem frame VSCP_MULTICAST_PACKET0_POS_YEAR_MSB
               (Z.land (Z.shiftr (1900 + datetime.year dt) 8) 0xff) ;
    do frame <- py.setitem frame VSCP_MULTICAST_PACKET0_POS_YEAR_LSB
               (Z.land (1900 + datetime.year dt) 0xff) ;
    do frame <- py.setitem frame VSCP_MULTICAST_PACKET0_POS_MONTH (datetime.month dt) ;
    do frame <- py.setitem frame VSCP_MULTICAST_PACKET0_POS_DAY (datetime.day dt) ;
    do frame <- py.setitem frame VSCP_MULTICAST_PACKET0_POS_HOUR (datetime.hour dt) ;
    do frame <- py.setitem frame VSCP_MULTICAST_PACKET0_POS_MINUTE (datetime.minute dt) ;
    py.setitem frame VSCP_MULTICAST_PACKET0_POS_SECOND (datetime.second dt)
  else
    do frame <- py.setitem frame VSCP_MULTICAST_PACKET0_POS_YEAR_MSB
               (Z.land (Z.shiftr e.(year) 8) 0xff) ;
    do frame <- py.setitem frame VSCP_MULTICAST_PACKET0_POS_YEAR_LSB
               (Z.land e.(year) 0xff) ;
    do frame <- py.setitem frame VSCP_MULTICAST_PACKET0_POS_MONTH e.(month) ;
    do frame <- py.setitem frame VSCP_MULTICAST_PACKET0_POS_DAY e.(day) ;
    do frame <- py.setitem frame VSCP_MULTICAST_PACKET0_POS_HOUR e.(hour) ;
    do frame <- py.setitem frame VSCP_MULTICAST_PACKET0_POS_MINUTE e.(minute) ;
    py.setitem frame VSCP_MULTICAST_PACKET0_POS_SECOND e.(second).

(** The checksum lines 118-119: the CRC of the text that spells each byte
    of [frame[1:POS_DATA + 13]] as a backslash-x escape. *)
Definition frame_crc (frame : list Z) : Z :=
  let binstr :=
    py.join (map py.format_x
               (py.slice frame 1 (VSCP_MULTICAST_PACKET0_POS_VSCP_DATA + 13))) in
  CRCCCITT.calculate_str CRCCCITT.starting_value_FFFF binstr.

Definition makeVscpFrame (ptype : Z) (e : event_arg) : result (list Z) :=
  match e with
  | NotEventEx =>
      Raise (ValueError "VSCP event must be vscpEventEx not vscpEvent.")
  | EventEx e =>
    if e.(sizedata) >? VSCP_LEVEL2_MAXDATA then
      Raise (ValueError "VSCP event has data size that is greater than allowed.")
    else
    do frame <- py.bytearray (1 + VSCP_MULTICAST_PACKET0_HEADER_LENGTH
                             + VSCP_LEVEL2_MAXDATA + 2) ;
    do frame <- py.setitem frame VSCP_MULTICAST_PACKET0_POS_PKTTYPE ptype ;
    do frame <- py.setitem frame VSCP_MULTICAST_PACKET0_POS_HEAD_MSB
               (Z.land (Z.shiftr e.(head) 8) 0xff) ;
    do frame <- py.setitem frame VSCP_MULTICAST_PACKET0_POS_HEAD_LSB
               (Z.land e.(head) 0xff) ;
    do frame <- py.setitem frame VSCP_MULTICAST_PACKET0_POS_TIMESTAMP
               (Z.land (Z.shiftr e.(timestamp) 24) 0xff) ;
    do frame <- py.setitem frame (VSCP_MULTICAST_PACKET0_POS_TIMESTAMP + 1)
               (Z.land (Z.shiftr e.(timestamp) 8) 0xff) ;
    do frame <- py.setitem frame (VSCP_MULTICAST_PACKET0_POS_TIMESTAMP + 2)
               (Z.land (Z.shiftr e.(timestamp) 8) 0xff) ;
    do frame <- py.setitem frame (VSCP_MULTICAST_PACKET0_POS_TIMESTAMP + 3)
               (Z.land e.(timestamp) 0xff) ;
    do frame <- write_datetime frame e ;
    do frame <- py.setitem frame VSCP_MULTICAST_PACKET0_POS_VSCP_CLASS_MSB
               (Z.land (Z.shiftr e.(vscpclass) 8) 0xff) ;
    do frame <- py.setitem frame VSCP_MULTICAST_PACKET0_POS_VSCP_CLASS_LSB
               (Z.land e.(vscpclass) 0xff) ;
    do frame <- py.setitem frame VSCP_MULTICAST_PACKET0_POS_VSCP_TYPE_MSB
               (Z.land (Z.shiftr e.(vscptype) 8) 0xff) ;
    do frame <- py.setitem frame VSCP_MULTICAST_PACKET0_POS_VSCP_TYPE_LSB
               (Z.land e.(vscptype) 0xff) ;
    do frame <- py.for_in [0; 15]
               (fun i frame =>
                  do g <- py.getitem e.(guid) i ;
                  py.setitem frame (VSCP_MULTICAST_PACKET0_POS_VSCP_GUID + i) g)
               frame ;
    do frame <- py.setitem frame VSCP_MULTICAST_PACKET0_POS_VSCP_SIZE_MSB
               (Z.land (Z.shiftr e.(sizedata) 8) 0xff) ;
    do frame <- py.setitem frame VSCP_MULTICAST_PACKET0_POS_VSCP_SIZE_LSB
               (Z.land e.(sizedata) 0xff) ;
    do frame <- py.for_in [0; e.(sizedata)]
               (fun i frame =>
                  do d <- py.getitem e.(data) i ;
                  py.setitem frame (VSCP_MULTICAST_PACKET0_POS_VSCP_DATA + i) d)
               frame ;
    let framecrc := frame_crc frame in
    do frame <- py.setitem frame (1 + VSCP_MULTICAST_PACKET0_HEADER_LENGTH + 13)
               (Z.land (Z.shiftr framecrc 8) 0xff) ;
    do frame <- py.setitem frame (1 + VSCP_MULTICAST_PACKET0_HEADER_LENGTH + 13 + 1)
               (Z.land framecrc 0xff) ;
    Ok (py.slice frame 0 (1 + VSCP_MULTICAST_PACKET0_HEADER_LENGTH + 13 + 2))
  end.

End MakeFrame.

(** ** [binascii.unhexlify] *)

Module binascii.

Definition hex_value (c : ascii) : option Z :=
  let n := py.ord c in
  if (48 <=? n) && (n <=? 57) then Some (n - 48)
  else if (65 <=? n) && (n <=? 70) then Some (n - 55)
  else if (97 <=? n) && (n <=? 102) then Some (n - 87)
  else None.

Fixpoint unhexlify_pairs (s : list ascii) : result (list Z) :=
  match s with
  | a :: b :: rest =>
      match hex_value a, hex_value b with
      | Some h, Some l => do t <- unhexlify_pairs rest ; Ok (16 * h + l :: t)
      | _, _ => Raise (BinasciiError "Non-hexadecimal digit found")
      end
  | _ => Ok []
  end.

Definition unhexlify (s : string) : result (list Z) :=
  let cs := list_ascii_of_string s in
  if Nat.odd (length cs) then Raise (BinasciiError "Odd-length string")
  else unhexlify_pairs cs.

End binascii.

(** ** [encryptVscpFrame] *)

(** A value handed to [cipher.encrypt]: a byte string, or the text that
    [str] makes of a bytearray (on Python 3 its printed form,
    [bytearray(b'...')], kept here by the bytes it prints). *)
Inductive pydata : Type :=
| PyBytes (b : list Z)
| PyStrOfBytearray (b : list Z).

(** The part of [Crypto.Cipher.AES] that the module uses. *)
Module Crypto.

Record cipher : Type := {
  cipher_key : list Z;
  cipher_iv : list Z
}.

(** [AES.new(key, AES.MODE_CBC, iv)]: the key must have 16, 24 or 32 bytes
    and the initialization vector 16. *)
Definition AES_new (key iv : list Z) : result cipher :=
  if (py.len key =? 16) || (py.len key =? 24) || (py.len key =? 32) then
    if py.len iv =? 16 then Ok {| cipher_key := key; cipher_iv := iv |}
    else Raise (ValueError "Incorrect IV length (it must be 16 bytes long)")
  else Raise (ValueError "Incorrect AES key length").

(** [cipher.encrypt(data)]: text is refused; bytes must be whole blocks and
    are sealed by [aes_cbc], the block cipher in CBC mode. *)
Definition encrypt (aes_cbc : list Z -> list Z -> list Z -> list Z)
    (c : cipher) (data : pydata) : result (list Z) :=
  match data with
  | PyStrOfBytearray _ =>
      Raise (TypeError "Object type <class 'str'> cannot be passed to C code")
  | PyBytes b =>
      if py.len b mod 16 =? 0
      then Ok (aes_cbc c.(cipher_key) c.(cipher_iv) b)
      else Raise (ValueError
                    "Data must be padded to 16 byte boundary in CBC mode")
  end.

End Crypto.

(** What the call can change or reach: the bytearray object the caller
    passed as [frame], which the function holds by reference, the console,
    and the Crypto library, of which the calls [AES.new(key, MODE_CBC, iv)]
    are kept with their key and initialization vector. *)
Record world : Type := {
  frame_obj : list Z;
  stdout : list string;
  aes_new_calls : list (list Z * list Z)
}.

Definition print (line : string) (w : world) : world :=
  {| frame_obj := w.(frame_obj);
     stdout := w.(stdout) ++ [line];
     aes_new_calls := w.(aes_new_calls) |}.

Definition set_frame (frame : list Z) (w : world) : world :=
  {| frame_obj := frame;
     stdout := w.(stdout);
     aes_new_calls := w.(aes_new_calls) |}.

Definition note_aes_new (key iv : list Z) (w : world) : world :=
  {| frame_obj := w.(frame_obj);
     stdout := w.(stdout);
     aes_new_calls := w.(aes_new_calls) ++ [(key, iv)] |}.

(** What the call returns: the caller's own bytearray object (line 143) or a
    new byte string (line 169). *)
Inductive retval : Type :=
| RetFrame
| RetBytes (b : list Z).

(** The loop of lines 160-161 on the caller's bytearray:
    [while (len(frame) - 1) % 16: frame.append(0)]. *)
Equations? pad_frame (frame : list Z) : list Z
  by wf (Z.to_nat ((1 - py.len frame) mod 16)) lt :=
pad_frame frame with Z.eq_dec ((py.len frame - 1) mod 16) 0 => {
  | left _ := frame
  | right _ := pad_frame (frame ++ [0]) }.
Proof.
  unfold py.len in *. rewrite length_app, Nat2Z.inj_add. simpl.
  apply Z2Nat.inj_lt; try (apply Z.mod_pos_bound; lia).
  Z.to_euclidean_division_equations; lia.
Qed.

(** The identifiers that name a cipher: AES128, AES192 and AES256. *)
Definition is_aes_scheme (encryption : Z) : bool :=
  (vscp.VSCP_ENCRYPTION_AES128 =? encryption)
  || (vscp.VSCP_ENCRYPTION_AES192 =? encryption)
  || (vscp.VSCP_ENCRYPTION_AES256 =? encryption).


(** The prefix byte that belongs to a cipher identifier. *)
Definition scheme_prebyte (encryption : Z) : Z :=
  if vscp.VSCP_ENCRYPTION_AES128 =? encryption then 1
  else if vscp.VSCP_ENCRYPTION_AES192 =? encryption then 2
  else 3.

(** The key that belongs to a cipher identifier. *)
Definition scheme_key (k16 k24 k32 : list Z) (encryption : Z) : list Z :=
  if vscp.VSCP_ENCRYPTION_AES128 =? encryption then k16
  else if vscp.VSCP_ENCRYPTION_AES192 =? encryption then k24
  else k32.

Section Encrypt.

(** The default keys of [vscp], as hexadecimal text. *)
Variables VSCP_DEFAULT_KEY16 VSCP_DEFAULT_KEY24 VSCP_DEFAULT_KEY32 : string.

(** The block cipher in CBC mode behind [cipher.encrypt]: key,
    initialization vector and whole blocks of plaintext to ciphertext. *)
Variable AES_CBC_encrypt : forall (key iv plaintext : list Z), list Z.

Import vscp.

(** Lines 141-157: the console line, the key and the prefix byte chosen for
    [encryption]; [key] and [prebyte] come in with their defaults of lines
    138-139. *)
Definition select_scheme (encryption : Z) (key prebyte : list Z)
  : string * result (list Z * list Z) :=
  if VSCP_ENCRYPTION_AES128 =? encryption then
    ("AES128 encryption is used."%string,
     do key <- binascii.unhexlify VSCP_DEFAULT_KEY16 ; Ok (key, [1]))
  else if VSCP_ENCRYPTION_AES192 =? encryption then
    ("AES192 encryption is used."%string,
     do key <- binascii.unhexlify VSCP_DEFAULT_KEY24 ; Ok (key, [2]))
  else if VSCP_ENCRYPTION_AES256 =? encryption then
    ("AES256 encryption is used."%string,
     do key <- binascii.unhexlify VSCP_DEFAULT_KEY32 ; Ok (key, [3]))
  else
    ("Bad encryption argument - AES128 encryption used."%string,
     Ok (key, prebyte)).

(** [iv] is the reading of [Random.new().read(16)]. Lines 160-161 pad the
    caller's bytearray; line 165 makes the cipher; line 167 hands it
    [str(frame[1:])], the text of the slice. *)
Definition encryptVscpFrame (w : world) (encryption : Z) (iv : list Z)
  : world * result retval :=
  match binascii.unhexlify VSCP_DEFAULT_KEY16 with
  | Raise e => (w, Raise e)
  | Ok key =>
    let prebyte := [1] in
    if VSCP_ENCRYPTION_NONE =? encryption then
      (print "No encryption is used." w, Ok RetFrame)
    else
      let '(line, chosen) := select_scheme encryption key prebyte in
      let w := print line w in
      match chosen with
      | Raise e => (w, Raise e)
      | Ok (key, prebyte) =>
        let frame := pad_frame w.(frame_obj) in
        let w := set_frame frame w in
        let w := note_aes_new key iv w in
        match Crypto.AES_new key iv with
        | Raise e => (w, Raise e)
        | Ok cipher =>
          match Crypto.encrypt AES_CBC_encrypt cipher
                  (PyStrOfBytearray (py.slice_from frame 1)) with
          | Raise e => (w, Raise e)
          | Ok ciphertext =>
              (w, Ok (RetBytes (prebyte ++ ciphertext ++ iv)))
          end
        end
      end
  end.

End Encrypt.

(** ** Well-formed inputs *)

Definition is_byte (x : Z) : Prop := 0 <= x < 256.

(** An event as a [vscpEventEx] structure holds it, with the clock and the
    packet type: byte-sized fields are bytes, the GUID has 16 bytes, and the
    payload buffer is longer than the payload it declares. *)
Record well_formed_input (maxdata : Z) (dt : datetime.datetime) (ptype : Z)
    (e : vscp.vscpEventEx) : Prop := {
  wf_maxdata : 13 <= maxdata;
  wf_ptype : is_byte ptype;
  wf_sizedata : 0 <= vscp.sizedata e <= maxdata;
  wf_clock :
    Forall is_byte
      [datetime.month dt; datetime.day dt; datetime.hour dt;
       datetime.minute dt; datetime.second dt];
  wf_date :
    Forall is_byte
      [vscp.month e; vscp.day e; vscp.hour e; vscp.minute e; vscp.second e];
  wf_guid : length (vscp.guid e) = 16%nat /\ Forall is_byte (vscp.guid e);
  wf_data :
    vscp.sizedata e < py.len (vscp.data e) /\ Forall is_byte (vscp.data e)
}.

(** * Properties *)

(** ** Item assignment and the error monad *)

Lemma bind_Ok_inv {A B : Type} (r : result A) (k : A -> result B) (b : B) :
  bind r k = Ok b -> exists a, r = Ok a /\ k a = Ok b.
Proof.
  destruct r as [a | e]; simpl; intros H; [eauto | discriminate H].
Qed.

Lemma setitem_inv (l l' : list Z) (i v : Z) :
  py.setitem l i v = Ok l' -> 0 <= i ->
  (0 <= v < 256) /\ i < py.len l /\ l' = <[Z.to_nat i := v]> l.
Proof.
  unfold py.setitem, py.in_range, py.norm_index. intros H Hi.
  destruct (0 <=? v) eqn:Hv0; destruct (v <? 256) eqn:Hv1; simpl in H;
    try discriminate H.
  destruct (i <? 0) eqn:Hneg; [lia |].
  destruct (0 <=? i) eqn:H0; destruct (i <? py.len l) eqn:H1; simpl in H;
    try discriminate H.
  injection H as <-. repeat split; lia.
Qed.

Lemma setitem_length (l l' : list Z) (i v : Z) :
  py.setitem l i v = Ok l' -> length l' = length l.
Proof.
  unfold py.setitem. intros H.
  destruct ((0 <=? v) && (v <? 256)); [| discriminate H].
  destruct (py.in_range l i); [| discriminate H].
  injection H as <-. apply length_insert.
Qed.

Lemma getitem_inv (l : list Z) (i x : Z) :
  py.getitem l i = Ok x -> 0 <= i -> l !! Z.to_nat i = Some x.
Proof.
  unfold py.getitem, py.in_range, py.norm_index. intros H Hi.
  destruct (i <? 0) eqn:Hneg; [lia |].
  destruct ((0 <=? i) && (i <? py.len l)); [| discriminate H].
  destruct (l !! Z.to_nat i); [congruence | discriminate H].
Qed.

Lemma slice_0_lookup (l : list Z) (hi : Z) (j : nat) :
  (j < Z.to_nat hi)%nat -> py.slice l 0 hi !! j = l !! j.
Proof.
  intros Hj. unfold py.slice. rewrite Z.sub_0_r. simpl.
  rewrite drop_0. apply lookup_take_lt. exact Hj.
Qed.

Create HintDb layout.

#[local] Hint Unfold
  vscp.VSCP_MULTICAST_PACKET0_HEADER_LENGTH
  vscp.VSCP_MULTICAST_PACKET0_POS_PKTTYPE
  vscp.VSCP_MULTICAST_PACKET0_POS_HEAD_MSB
  vscp.VSCP_MULTICAST_PACKET0_POS_HEAD_LSB
  vscp.VSCP_MULTICAST_PACKET0_POS_TIMESTAMP
  vscp.VSCP_MULTICAST_PACKET0_POS_YEAR_MSB
  vscp.VSCP_MULTICAST_PACKET0_POS_YEAR_LSB
  vscp.VSCP_MULTICAST_PACKET0_POS_MONTH
  vscp.VSCP_MULTICAST_PACKET0_POS_DAY
  vscp.VSCP_MULTICAST_PACKET0_POS_HOUR
  vscp.VSCP_MULTICAST_PACKET0_POS_MINUTE
  vscp.VSCP_MULTICAST_PACKET0_POS_SECOND
  vscp.VSCP_MULTICAST_PACKET0_POS_VSCP_CLASS_MSB
  vscp.VSCP_MULTICAST_PACKET0_POS_VSCP_CLASS_LSB
  vscp.VSCP_MULTICAST_PACKET0_POS_VSCP_TYPE_MSB
  vscp.VSCP_MULTICAST_PACKET0_POS_VSCP_TYPE_LSB
  vscp.VSCP_MULTICAST_PACKET0_POS_VSCP_GUID
  vscp.VSCP_MULTICAST_PACKET0_POS_VSCP_SIZE_MSB
  vscp.VSCP_MULTICAST_PACKET0_POS_VSCP_SIZE_LSB
  vscp.VSCP_MULTICAST_PACKET0_POS_VSCP_DATA : layout.

(** Splits a successful run of binds into its successful steps. *)
Ltac split_binds :=
  repeat match goal with
  | H : bind _ _ = Ok _ |- _ =>
      let a := fresh "f" in
      let E := fresh "E" in
      apply bind_Ok_inv in H; destruct H as (a & E & H)
  end.

(** Turns each successful item assignment at a non-negative index into the
    list update it performs. *)
Ltac setitems_to_inserts :=
  repeat match goal with
  | H : py.setitem _ _ _ = Ok _ |- _ =>
      apply setitem_inv in H; [| lia];
      let Hi := fresh "Hi" in
      destruct H as (_ & Hi & H)
  end.


Lemma bytearray_inv (n : Z) (l : list Z) :
  py.bytearray n = Ok l -> 0 <= n /\ l = replicate (Z.to_nat n) 0.
Proof.
  unfold py.bytearray. destruct (n <? 0) eqn:Hn; intros H;
    [discriminate H | injection H as <-]. split; [lia | reflexivity].
Qed.

Lemma getitem_lookup (l : list Z) (i x : Z) :
  0 <= i -> l !! Z.to_nat i = Some x -> py.getitem l i = Ok x.
Proof.
  intros Hi Hx. pose proof (lookup_lt_Some _ _ _ Hx) as Hlt.
  unfold py.getitem, py.in_range, py.norm_index, py.len.
  destruct (i <? 0) eqn:Hneg; [lia |].
  destruct (0 <=? i) eqn:H0; [| lia].
  destruct (i <? Z.of_nat (length l)) eqn:H1; [| lia].
  simpl. rewrite Hx. reflexivity.
Qed.

Lemma Ok_inj {A : Type} (a b : A) : Ok a = Ok b -> a = b.
Proof. congruence. Qed.

(** Opens a successful run of [makeVscpFrame] on an event whose [sizedata]
    is not negative: every step becomes a list update, in both branches of
    the date and time block. *)
Ltac open_frame H :=
  unfold makeVscpFrame, write_datetime in H;
  match type of H with
  | (if ?c then _ else _) = _ => destruct c; [discriminate H |]
  end;
  cbn [py.for_in] in H;
  match type of H with
  | context [if ?c then _ else _] =>
      let Hdate := fresh "Hdate" in destruct c eqn:Hdate
  end;
  split_binds;
  repeat match goal with
  | H' : Ok _ = Ok _ |- _ => apply Ok_inj in H'
  | H' : py.bytearray _ = Ok _ |- _ =>
      apply bytearray_inv in H'; destruct H' as (? & H')
  end;
  autounfold with layout in *;
  setitems_to_inserts;
  subst;
  unfold py.len in *;
  repeat rewrite length_insert in *;
  repeat match goal with
  | H' : context [length (replicate _ _)] |- _ =>
      rewrite length_replicate in H'
  end.

(** Reads one byte of an opened frame. *)
Ltac read_frame :=
  apply getitem_lookup; [lia |];
  rewrite slice_0_lookup by (simpl; lia);
  repeat rewrite list_lookup_insert_ne by lia;
  first
    [ rewrite list_lookup_insert_eq
        by (repeat rewrite length_insert; rewrite length_replicate; lia);
      reflexivity
    | apply lookup_replicate_2; lia ].

Lemma setitem_Ok (l : list Z) (i v : Z) :
  is_byte v -> 0 <= i < py.len l ->
  py.setitem l i v = Ok (<[Z.to_nat i := v]> l).
Proof.
  unfold is_byte, py.setitem, py.in_range, py.norm_index. intros Hv Hi.
  destruct (0 <=? v) eqn:H0; [| lia]. destruct (v <? 256) eqn:H1; [| lia].
  destruct (i <? 0) eqn:H2; [lia |].
  destruct (0 <=? i) eqn:H3; [| lia].
  destruct (i <? py.len l) eqn:H4; [| lia]. reflexivity.
Qed.

Lemma land_255_byte (x : Z) : is_byte (Z.land x 255).
Proof.
  unfold is_byte. change 255 with (Z.ones 8).
  rewrite Z.land_ones by lia. apply Z.mod_pos_bound. lia.
Qed.

Lemma getitem_Ok_byte (l : list Z) (i : Z) :
  0 <= i < py.len l -> Forall is_byte l ->
  exists x, py.getitem l i = Ok x /\ is_byte x.
Proof.
  intros Hi Hall. unfold py.len in Hi.
  destruct (lookup_lt_is_Some_2 l (Z.to_nat i) ltac:(lia)) as [x Hx].
  exists x. split; [apply getitem_lookup; [lia | exact Hx] |].
  rewrite Forall_lookup in Hall. exact (Hall _ _ Hx).
Qed.

(** Runs one item assignment of a byte at an index in range. *)
Ltac write_byte :=
  rewrite setitem_Ok;
  [ cbn [bind]
  | first [apply land_255_byte | assumption]
  | unfold py.len; repeat rewrite length_insert; rewrite length_replicate;
    lia ].

(** ** The frame builder *)

Section MakeFrameFacts.

Variable VSCP_LEVEL2_MAXDATA : Z.
Variable dt : datetime.datetime.

(** The checksum range and the two checksum bytes lie inside the returned
    slice, so the checksum text of the returned frame is the one that was
    summed. *)
Lemma frame_crc_of_result (f : list Z) (a b : Z) :
  frame_crc
    (py.slice (<[Z.to_nat 50 := b]> (<[Z.to_nat 49 := a]> f)) 0 51)
  = frame_crc f.
Proof.
  unfold frame_crc. f_equal. f_equal. f_equal.
  autounfold with layout. unfold py.slice.
  apply list_eq. intros j.
  change (Z.to_nat (51 - 0)) with 51%nat.
  change (Z.to_nat (36 + 13 - 1)) with 48%nat.
  change (Z.to_nat 0) with 0%nat. change (Z.to_nat 1) with 1%nat.
  change (Z.to_nat 49) with 49%nat. change (Z.to_nat 50) with 50%nat.
  rewrite drop_0.
  destruct (decide (j < 48)%nat) as [Hj | Hj].
  - rewrite !lookup_take_lt by lia. rewrite !lookup_drop.
    rewrite lookup_take_lt by lia.
    rewrite !list_lookup_insert_ne by lia. reflexivity.
  - rewrite !lookup_take_ge by lia. reflexivity.
Qed.

(** C1. Every frame that [makeVscpFrame] returns has the length
    [1 + HEADER_LENGTH + 13 + 2], that of a frame with 13 payload bytes,
    whatever the event's [sizedata] is: the slice of line 126 is taken at
    the constant 13 and not at [sizedata], so the length is the claimed
    [1 + HEADER_LENGTH + sizedata + 2] only when [sizedata] is 13. *)
Theorem makeVscpFrame_length (ptype : Z) (e : vscp.vscpEventEx) (frame : list Z) :
  makeVscpFrame VSCP_LEVEL2_MAXDATA dt ptype (EventEx e) = Ok frame ->
  py.len frame = 1 + vscp.VSCP_MULTICAST_PACKET0_HEADER_LENGTH + 13 + 2.
Proof.
  unfold makeVscpFrame. intros H.
  destruct (vscp.sizedata e >? VSCP_LEVEL2_MAXDATA); [discriminate H |].
  split_binds. apply Ok_inj in H. subst frame.
  autounfold with layout in *.
  match goal with
  | E : py.setitem _ (1 + 35 + 13 + 1) _ = Ok _ |- _ =>
      apply setitem_inv in E; [destruct E as (_ & Hlen & ->) | lia]
  end.
  unfold py.slice, py.len in *.
  rewrite length_take, length_drop, length_insert. lia.
Qed.

(** C2. Of the 16 GUID bytes of the event, every frame that [makeVscpFrame]
    returns holds only the first and the last: the loop of line 106 runs
    over the pair [(0, 15)], so the 14 bytes between them keep the zero of
    the fresh buffer instead of [guid[i]]. *)
Theorem makeVscpFrame_guid_bytes (ptype : Z) (e : vscp.vscpEventEx) (frame : list Z) :
  makeVscpFrame VSCP_LEVEL2_MAXDATA dt ptype (EventEx e) = Ok frame ->
  0 <= vscp.sizedata e ->
  py.getitem frame (vscp.VSCP_MULTICAST_PACKET0_POS_VSCP_GUID + 0)
  = py.getitem (vscp.guid e) 0
  /\ py.getitem frame (vscp.VSCP_MULTICAST_PACKET0_POS_VSCP_GUID + 15)
     = py.getitem (vscp.guid e) 15
  /\ forall i, 1 <= i <= 14 ->
       py.getitem frame (vscp.VSCP_MULTICAST_PACKET0_POS_VSCP_GUID + i) = Ok 0.
Proof.
  intros H Hn.
  open_frame H;
    repeat match goal with
    | E : py.getitem (vscp.guid e) _ = Ok _ |- _ => rewrite E; clear E
    end;
    (split; [read_frame | split; [read_frame | intros i Hrange; read_frame]]).
Qed.

(** C3. Of the payload, every frame that [makeVscpFrame] returns holds
    [data[0]] at the first payload position and, when it falls inside the
    frame, [data[sizedata]] at position [sizedata]: the loop of line 114
    runs over the pair [(0, sizedata)]. Every other payload position of the
    frame keeps the zero of the fresh buffer instead of [data[i]]. *)
Theorem makeVscpFrame_data_bytes (ptype : Z) (e : vscp.vscpEventEx) (frame : list Z) :
  makeVscpFrame VSCP_LEVEL2_MAXDATA dt ptype (EventEx e) = Ok frame ->
  0 <= vscp.sizedata e ->
  py.getitem frame (vscp.VSCP_MULTICAST_PACKET0_POS_VSCP_DATA + 0)
  = py.getitem (vscp.data e) 0
  /\ (vscp.sizedata e < 13 ->
      py.getitem frame
        (vscp.VSCP_MULTICAST_PACKET0_POS_VSCP_DATA + vscp.sizedata e)
      = py.getitem (vscp.data e) (vscp.sizedata e))
  /\ forall i, 1 <= i < 13 -> i <> vscp.sizedata e ->
       py.getitem frame (vscp.VSCP_MULTICAST_PACKET0_POS_VSCP_DATA + i) = Ok 0.
Proof.
  intros H Hn.
  destruct (decide (vscp.sizedata e = 0)) as [Hz | Hz]; open_frame H;
    try rewrite Hz in *;
    repeat match goal with
    | E : py.getitem ?d ?i = Ok ?a, E' : py.getitem ?d ?i = Ok ?b |- _ =>
        assert (a = b) by congruence; subst a; clear E
    end;
    (split; [| split; [intros Hlt | intros i Hrange Hne; read_frame]]);
    match goal with
    | E : py.getitem ?d ?i = Ok _ |- _ = py.getitem ?d ?i => rewrite E
    end;
    read_frame.
Qed.

(** C4. The two checksum bytes of every frame that [makeVscpFrame] returns
    are, most-significant byte first, the CRC-CCITT (start 0xFFFF) of
    [frame_crc]: it is summed over the text that spells each byte of
    [frame[1:POS_DATA + 13]] as the four characters of a backslash-x
    escape, not over the bytes themselves, and over a range that ends at
    the constant 13 and not at [sizedata]. The bytes stand at the end of
    the frame, at [1 + HEADER_LENGTH + 13]. *)
Theorem makeVscpFrame_crc_bytes (ptype : Z) (e : vscp.vscpEventEx) (frame : list Z) :
  makeVscpFrame VSCP_LEVEL2_MAXDATA dt ptype (EventEx e) = Ok frame ->
  py.getitem frame (1 + vscp.VSCP_MULTICAST_PACKET0_HEADER_LENGTH + 13)
  = Ok (Z.land (Z.shiftr (frame_crc frame) 8) 0xff)
  /\ py.getitem frame (1 + vscp.VSCP_MULTICAST_PACKET0_HEADER_LENGTH + 13 + 1)
     = Ok (Z.land (frame_crc frame) 0xff).
Proof.
  unfold makeVscpFrame. intros H.
  destruct (vscp.sizedata e >? VSCP_LEVEL2_MAXDATA); [discriminate H |].
  split_binds. apply Ok_inj in H. subst frame.
  autounfold with layout in *.
  repeat match goal with
  | E : py.setitem _ (1 + 35 + 13 + 1) _ = Ok _ |- _ =>
      apply setitem_inv in E; [destruct E as (_ & ? & ->) | lia]
  | E : py.setitem _ (1 + 35 + 13) _ = Ok _ |- _ =>
      apply setitem_inv in E; [destruct E as (_ & ? & ->) | lia]
  end.
  change (1 + 35 + 13 + 1) with 50 in *. change (1 + 35 + 13) with 49 in *.
  change (1 + 35 + 13 + 2) with 51.
  rewrite frame_crc_of_result.
  unfold py.len in *. rewrite length_insert in *.
  split; apply getitem_lookup; try lia;
    rewrite slice_0_lookup by (simpl; lia).
  - rewrite list_lookup_insert_ne by lia.
    rewrite list_lookup_insert_eq by lia. reflexivity.
  - rewrite list_lookup_insert_eq by (rewrite length_insert; lia).
    reflexivity.
Qed.

(** C7. In every frame that [makeVscpFrame] returns, the four timestamp
    bytes are [(timestamp >> 24) & 0xff], [(timestamp >> 8) & 0xff],
    [(timestamp >> 8) & 0xff] and [timestamp & 0xff]: line 71 shifts by 8
    where the big-endian layout needs 16, so the second byte repeats the
    third instead of holding [(timestamp >> 16) & 0xff]. *)
Theorem makeVscpFrame_timestamp_bytes (ptype : Z) (e : vscp.vscpEventEx) (frame : list Z) :
  makeVscpFrame VSCP_LEVEL2_MAXDATA dt ptype (EventEx e) = Ok frame ->
  0 <= vscp.sizedata e ->
  py.getitem frame vscp.VSCP_MULTICAST_PACKET0_POS_TIMESTAMP
  = Ok (Z.land (Z.shiftr (vscp.timestamp e) 24) 0xff)
  /\ py.getitem frame (vscp.VSCP_MULTICAST_PACKET0_POS_TIMESTAMP + 1)
     = Ok (Z.land (Z.shiftr (vscp.timestamp e) 8) 0xff)
  /\ py.getitem frame (vscp.VSCP_MULTICAST_PACKET0_POS_TIMESTAMP + 2)
     = Ok (Z.land (Z.shiftr (vscp.timestamp e) 8) 0xff)
  /\ py.getitem frame (vscp.VSCP_MULTICAST_PACKET0_POS_TIMESTAMP + 3)
     = Ok (Z.land (vscp.timestamp e) 0xff).
Proof.
  intros H Hn. open_frame H; repeat split; read_frame.
Qed.

(** C8. The date and time block of every frame that [makeVscpFrame]
    returns. When the six fields of the event are all zero, the block is the
    clock reading with 1900 added to its year: the year bytes are those of
    [1900 + dt.year] although [dt.year] is the full year already, and month,
    day, hour, minute and second are the clock's. Otherwise the block is
    the event's own fields: the year in 16 bits, most-significant byte
    first, then month, day, hour, minute and second, one byte each. *)
Theorem makeVscpFrame_datetime_block (ptype : Z) (e : vscp.vscpEventEx) (frame : list Z) :
  makeVscpFrame VSCP_LEVEL2_MAXDATA dt ptype (EventEx e) = Ok frame ->
  0 <= vscp.sizedata e ->
  map (py.getitem frame)
    [vscp.VSCP_MULTICAST_PACKET0_POS_YEAR_MSB;
     vscp.VSCP_MULTICAST_PACKET0_POS_YEAR_LSB;
     vscp.VSCP_MULTICAST_PACKET0_POS_MONTH;
     vscp.VSCP_MULTICAST_PACKET0_POS_DAY;
     vscp.VSCP_MULTICAST_PACKET0_POS_HOUR;
     vscp.VSCP_MULTICAST_PACKET0_POS_MINUTE;
     vscp.VSCP_MULTICAST_PACKET0_POS_SECOND]
  = if datetime_is_zero e then
      [Ok (Z.land (Z.shiftr (1900 + datetime.year dt) 8) 0xff);
       Ok (Z.land (1900 + datetime.year dt) 0xff);
       Ok (datetime.month dt); Ok (datetime.day dt); Ok (datetime.hour dt);
       Ok (datetime.minute dt); Ok (datetime.second dt)]
    else
      [Ok (Z.land (Z.shiftr (vscp.year e) 8) 0xff);
       Ok (Z.land (vscp.year e) 0xff);
       Ok (vscp.month e); Ok (vscp.day e); Ok (vscp.hour e);
       Ok (vscp.minute e); Ok (vscp.second e)].
Proof.
  intros H Hn. open_frame H; cbn [map]; repeat f_equal; read_frame.
Qed.

(** C9. An extended event whose [sizedata] is greater than
    [VSCP_LEVEL2_MAXDATA] makes [makeVscpFrame] raise the data-size
    [ValueError] of line 54; no frame is returned. *)
Theorem makeVscpFrame_data_too_large (ptype : Z) (e : vscp.vscpEventEx) :
  vscp.sizedata e > VSCP_LEVEL2_MAXDATA ->
  makeVscpFrame VSCP_LEVEL2_MAXDATA dt ptype (EventEx e)
  = Raise (ValueError "VSCP event has data size that is greater than allowed.").
Proof.
  intros Hbig. unfold makeVscpFrame.
  destruct (vscp.sizedata e >? VSCP_LEVEL2_MAXDATA) eqn:Hcmp;
    [reflexivity | lia].
Qed.

(** An object that is not a [vscpEventEx] is refused before anything is
    built. *)
Lemma makeVscpFrame_type_mismatch (ptype : Z) :
  makeVscpFrame VSCP_LEVEL2_MAXDATA dt ptype NotEventEx
  = Raise (ValueError "VSCP event must be vscpEventEx not vscpEvent.").
Proof. reflexivity. Qed.

(** The second pass of the loop of line 114 reads [data[sizedata]], one
    past the declared payload: an event whose [data] holds exactly
    [sizedata] bytes is never turned into a frame. *)
Lemma makeVscpFrame_reads_past_payload (ptype : Z) (e : vscp.vscpEventEx) (frame : list Z) :
  py.len (vscp.data e) = vscp.sizedata e ->
  makeVscpFrame VSCP_LEVEL2_MAXDATA dt ptype (EventEx e) <> Ok frame.
Proof.
  intros Hlen H.
  assert (Hn : 0 <= vscp.sizedata e) by (unfold py.len in Hlen; lia).
  open_frame H;
    match goal with
    | E : py.getitem (vscp.data _) (vscp.sizedata _) = Ok _ |- _ =>
        apply getitem_inv in E; [| lia];
        apply lookup_lt_Some in E; lia
    end.
Qed.

End MakeFrameFacts.

(** X1. A well-formed input is accepted: the builder returns a frame for
    it. *)
Theorem makeVscpFrame_accepts (maxdata : Z) (dt : datetime.datetime)
    (ptype : Z) (e : vscp.vscpEventEx) :
  well_formed_input maxdata dt ptype e ->
  exists frame, makeVscpFrame maxdata dt ptype (EventEx e) = Ok frame.
Proof.
  intros [HM Hp Hn Hclock Hdate [Hglen Hg] [Hdlen Hd]].
  repeat match goal with
  | H : Forall _ (_ :: _) |- _ => apply Forall_cons in H as [? H]
  end.
  destruct (getitem_Ok_byte (vscp.guid e) 0) as (g0 & Eg0 & ?);
    [unfold py.len; lia | assumption |].
  destruct (getitem_Ok_byte (vscp.guid e) 15) as (g15 & Eg15 & ?);
    [unfold py.len; lia | assumption |].
  destruct (getitem_Ok_byte (vscp.data e) 0) as (d0 & Ed0 & ?);
    [lia | assumption |].
  destruct (getitem_Ok_byte (vscp.data e) (vscp.sizedata e)) as (dn & Edn & ?);
    [lia | assumption |].
  unfold makeVscpFrame, write_datetime.
  destruct (vscp.sizedata e >? maxdata) eqn:Hcmp; [lia |].
  unfold py.bytearray.
  destruct (1 + vscp.VSCP_MULTICAST_PACKET0_HEADER_LENGTH + maxdata + 2 <? 0)
    eqn:Hneg; [autounfold with layout in Hneg; lia |].
  cbn [bind py.for_in]. rewrite Eg0, Eg15, Ed0, Edn.
  autounfold with layout.
  destruct (datetime_is_zero e); cbn [bind]; repeat write_byte; eauto.
Qed.

(** ** The encryption wrapper *)

(** The loop of lines 160-161 appends [(1 - len(frame)) % 16] zero bytes. *)
Lemma pad_frame_spec (frame : list Z) :
  pad_frame frame
  = frame ++ replicate (Z.to_nat ((1 - py.len frame) mod 16)) 0.
Proof.
  funelim (pad_frame frame).
  - clear Heqcall.
    replace ((1 - py.len frame) mod 16) with 0
      by (Z.to_euclidean_division_equations; lia).
    simpl. rewrite app_nil_r. reflexivity.
  - rewrite H. clear H Heqcall.
    unfold py.len in *. rewrite length_app, Nat2Z.inj_add. simpl.
    replace (Z.to_nat ((1 - Z.of_nat (length frame)) mod 16))
      with (S (Z.to_nat ((1 - (Z.of_nat (length frame) + 1)) mod 16))).
    + simpl. rewrite <- app_assoc. reflexivity.
    + rewrite <- Z2Nat.inj_succ by (apply Z.mod_pos_bound; lia).
      f_equal. Z.to_euclidean_division_equations; lia.
Qed.

Lemma pad_frame_aligned (frame : list Z) :
  (py.len (pad_frame frame) - 1) mod 16 = 0.
Proof.
  rewrite pad_frame_spec. unfold py.len.
  rewrite length_app, length_replicate, Nat2Z.inj_add.
  rewrite Z2Nat.id by (apply Z.mod_pos_bound; lia).
  Z.to_euclidean_division_equations; lia.
Qed.

Lemma pad_frame_fixed_iff (frame : list Z) :
  pad_frame frame = frame <-> (py.len frame - 1) mod 16 = 0.
Proof.
  split.
  - intros H. rewrite <- H at 1. apply pad_frame_aligned.
  - intros H. rewrite pad_frame_spec.
    replace ((1 - py.len frame) mod 16) with 0
      by (Z.to_euclidean_division_equations; lia).
    simpl. apply app_nil_r.
Qed.

Lemma pad_frame_nonempty (frame : list Z) : (1 <= length (pad_frame frame))%nat.
Proof.
  pose proof (pad_frame_aligned frame) as H. unfold py.len in H.
  destruct (pad_frame frame); [vm_compute in H; discriminate H | simpl; lia].
Qed.

Lemma pad_frame_idempotent (frame : list Z) :
  pad_frame (pad_frame frame) = pad_frame frame.
Proof. apply pad_frame_fixed_iff, pad_frame_aligned. Qed.

(** [unhexlify] raises nothing but its own error. *)
Lemma unhexlify_pairs_raises (n : nat) (s : list ascii) (e : exn) :
  (length s <= n)%nat ->
  binascii.unhexlify_pairs s = Raise e -> exists msg, e = BinasciiError msg.
Proof.
  revert s. induction n as [| n IH]; intros s Hn H.
  - destruct s; [discriminate H | simpl in Hn; lia].
  - destruct s as [| a [| b rest]]; try discriminate H.
    simpl in H, Hn.
    destruct (binascii.hex_value a); [| injection H as <-; eauto].
    destruct (binascii.hex_value b); [| injection H as <-; eauto].
    destruct (binascii.unhexlify_pairs rest) eqn:Hrest; [discriminate H |].
    simpl in H. injection H as <-. apply (IH rest); [lia | exact Hrest].
Qed.

Lemma unhexlify_raises (s : string) (e : exn) :
  binascii.unhexlify s = Raise e -> exists msg, e = BinasciiError msg.
Proof.
  unfold binascii.unhexlify.
  destruct (Nat.odd (length (list_ascii_of_string s))).
  - intros H. injection H as <-. eauto.
  - apply (unhexlify_pairs_raises _ _ _ (le_n _)).
Qed.

(** Whether an exception is the one [unhexlify] raises. *)
Definition raised_by_unhexlify (e : exn) : bool :=
  match e with
  | BinasciiError _ => true
  | _ => false
  end.

(** The call step by step, with the outcome of each test named. *)
Ltac run_encrypt :=
  unfold encryptVscpFrame, select_scheme;
  repeat first
    [ progress cbn [fst snd bind frame_obj stdout aes_new_calls
                    print set_frame note_aes_new]
    | match goal with
      | |- context [match binascii.unhexlify ?k with _ => _ end] =>
          let E := fresh "Ekey" in destruct (binascii.unhexlify k) eqn:E
      | |- context [bind (binascii.unhexlify ?k) _] =>
          let E := fresh "Ekey" in destruct (binascii.unhexlify k) eqn:E
      | |- context [if ?a =? ?b then _ else _] =>
          let E := fresh "Eid" in destruct (a =? b) eqn:E
      | |- context [match Crypto.AES_new ?k ?i with _ => _ end] =>
          let E := fresh "Enew" in destruct (Crypto.AES_new k i) eqn:E
      end ].

Section EncryptFacts.

Variables VSCP_DEFAULT_KEY16 VSCP_DEFAULT_KEY24 VSCP_DEFAULT_KEY32 : string.
Variable AES_CBC_encrypt : forall (key iv plaintext : list Z), list Z.

Lemma is_aes_scheme_cases (encryption : Z) :
  is_aes_scheme encryption = true ->
  encryption = vscp.VSCP_ENCRYPTION_AES128
  \/ encryption = vscp.VSCP_ENCRYPTION_AES192
  \/ encryption = vscp.VSCP_ENCRYPTION_AES256.
Proof.
  unfold is_aes_scheme. intros H.
  apply orb_true_iff in H as [H | H]; [apply orb_true_iff in H as [H | H] |];
    apply Z.eqb_eq in H; auto.
Qed.

(** The caller's frame after any call: as it was, or padded. *)
Lemma encryptVscpFrame_frame_cases (w : world) (encryption : Z) (iv : list Z) :
  frame_obj (fst (encryptVscpFrame VSCP_DEFAULT_KEY16 VSCP_DEFAULT_KEY24
                    VSCP_DEFAULT_KEY32 AES_CBC_encrypt w encryption iv))
  = frame_obj w
  \/ frame_obj (fst (encryptVscpFrame VSCP_DEFAULT_KEY16 VSCP_DEFAULT_KEY24
                       VSCP_DEFAULT_KEY32 AES_CBC_encrypt w encryption iv))
     = pad_frame (frame_obj w).
Proof.
  run_encrypt; auto.
Qed.


(** Past the key texts, every call with an identifier other than that of no
    encryption pads the caller's frame. *)
Lemma encryptVscpFrame_padded (k16 k24 k32 : list Z) (w : world)
    (encryption : Z) (iv : list Z) :
  binascii.unhexlify VSCP_DEFAULT_KEY16 = Ok k16 ->
  binascii.unhexlify VSCP_DEFAULT_KEY24 = Ok k24 ->
  binascii.unhexlify VSCP_DEFAULT_KEY32 = Ok k32 ->
  vscp.VSCP_ENCRYPTION_NONE <> encryption ->
  frame_obj (fst (encryptVscpFrame VSCP_DEFAULT_KEY16 VSCP_DEFAULT_KEY24
                    VSCP_DEFAULT_KEY32 AES_CBC_encrypt w encryption iv))
  = pad_frame (frame_obj w).
Proof.
  intros H16 H24 H32 Hnone.
  run_encrypt; try congruence; try reflexivity.
  apply Z.eqb_eq in Eid. congruence.
Qed.

(** C10. [encryptVscpFrame] has no key parameter, and for each of the three
    cipher identifiers it makes the cipher with the default key of [vscp]
    for that scheme ([VSCP_DEFAULT_KEY16], [VSCP_DEFAULT_KEY24] or
    [VSCP_DEFAULT_KEY32], unhexlified) and the initialization vector. No
    ciphertext is computed under it, though: line 167 hands the cipher
    [str(frame[1:])], text and not bytes, the cipher refuses it, and the
    call raises [TypeError]. *)
Theorem encryptVscpFrame_default_key_no_ciphertext
    (k16 k24 k32 : list Z) (w : world) (encryption : Z) (iv : list Z) :
  binascii.unhexlify VSCP_DEFAULT_KEY16 = Ok k16 ->
  binascii.unhexlify VSCP_DEFAULT_KEY24 = Ok k24 ->
  binascii.unhexlify VSCP_DEFAULT_KEY32 = Ok k32 ->
  py.len k16 = 16 -> py.len k24 = 24 -> py.len k32 = 32 ->
  py.len iv = 16 ->
  is_aes_scheme encryption = true ->
  aes_new_calls
    (fst (encryptVscpFrame VSCP_DEFAULT_KEY16 VSCP_DEFAULT_KEY24
            VSCP_DEFAULT_KEY32 AES_CBC_encrypt w encryption iv))
  = aes_new_calls w ++ [(scheme_key k16 k24 k32 encryption, iv)]
  /\ exists msg,
       snd (encryptVscpFrame VSCP_DEFAULT_KEY16 VSCP_DEFAULT_KEY24
              VSCP_DEFAULT_KEY32 AES_CBC_encrypt w encryption iv)
       = Raise (TypeError msg).
Proof.
  intros H16 H24 H32 L16 L24 L32 Liv Haes.
  unfold encryptVscpFrame, select_scheme, scheme_key, Crypto.AES_new.
  rewrite H16.
  destruct (is_aes_scheme_cases _ Haes) as [-> | [-> | ->]];
    cbn; rewrite ?H16, ?H24, ?H32; cbn;
    rewrite ?L16, ?L24, ?L32, Liv; cbn; eauto.
Qed.

(** C6, as amended. For each of the three cipher identifiers the call pads
    the caller's own bytearray in place, and what it hands to the cipher is
    made from a copy, the slice [frame[1:]]: after the call
    the caller's frame holds its former bytes, unencrypted, followed by
    [(1 - len(frame)) % 16] zero bytes, and it is the frame it was exactly
    when [len(frame) - 1] was a multiple of 16 before the call. *)
Theorem encryptVscpFrame_pads_in_place
    (k16 k24 k32 : list Z) (w : world) (encryption : Z) (iv : list Z) :
  binascii.unhexlify VSCP_DEFAULT_KEY16 = Ok k16 ->
  binascii.unhexlify VSCP_DEFAULT_KEY24 = Ok k24 ->
  binascii.unhexlify VSCP_DEFAULT_KEY32 = Ok k32 ->
  is_aes_scheme encryption = true ->
  let w' := fst (encryptVscpFrame VSCP_DEFAULT_KEY16 VSCP_DEFAULT_KEY24
                   VSCP_DEFAULT_KEY32 AES_CBC_encrypt w encryption iv) in
  frame_obj w'
  = frame_obj w
    ++ replicate (Z.to_nat ((1 - py.len (frame_obj w)) mod 16)) 0
  /\ (frame_obj w' = frame_obj w <-> (py.len (frame_obj w) - 1) mod 16 = 0).
Proof.
  intros H16 H24 H32 Haes w'.
  assert (Hpad : frame_obj w' = pad_frame (frame_obj w)).
  { apply (encryptVscpFrame_padded k16 k24 k32); try assumption.
    destruct (is_aes_scheme_cases _ Haes) as [-> | [-> | ->]]; discriminate. }
  rewrite Hpad. split; [apply pad_frame_spec | apply pad_frame_fixed_iff].
Qed.


(** With the identifier of no encryption the call returns the caller's own
    bytearray and leaves it as it was. *)
Lemma encryptVscpFrame_none
    (k16 : list Z) (w : world) (iv : list Z) :
  binascii.unhexlify VSCP_DEFAULT_KEY16 = Ok k16 ->
  encryptVscpFrame VSCP_DEFAULT_KEY16 VSCP_DEFAULT_KEY24
    VSCP_DEFAULT_KEY32 AES_CBC_encrypt w vscp.VSCP_ENCRYPTION_NONE iv
  = (print "No encryption is used." w, Ok RetFrame).
Proof.
  intros H16. unfold encryptVscpFrame. rewrite H16. reflexivity.
Qed.

End EncryptFacts.

(** ** Worked inputs *)

(** A clock reading: 2020-06-15 12:30:45 UTC. *)
Definition dt_example : datetime.datetime :=
  {| datetime.year := 2020; datetime.month := 6; datetime.day := 15;
     datetime.hour := 12; datetime.minute := 30; datetime.second := 45 |}.

(** The event of the concrete scenario: explicit date 2020-01-01, class 10,
    type 6, a GUID of sixteen 0xAA and no payload; [data] is the zeroed
    buffer of an event structure with room for 479 bytes. *)
Definition ev_scenario : vscp.vscpEventEx :=
  {| vscp.year := 2020; vscp.month := 1; vscp.day := 1;
     vscp.hour := 0; vscp.minute := 0; vscp.second := 0;
     vscp.timestamp := 0; vscp.head := 0;
     vscp.vscpclass := 10; vscp.vscptype := 6;
     vscp.guid := replicate 16 0xAA;
     vscp.sizedata := 0;
     vscp.data := replicate 479 0 |}.

Definition frame_scenario : list Z :=
  [0; 0; 0; 0; 0; 0; 0; 7; 228; 1; 1; 0; 0; 0; 0; 10; 0; 6; 170; 0; 0;
   0; 0; 0; 0; 0; 0; 0; 0; 0; 0; 0; 0; 170; 0; 0; 0; 0; 0; 0; 0; 0; 0;
   0; 0; 0; 0; 0; 0; 121; 86].

(** An event with the date and time left zero, the timestamp 0x12345678,
    the GUID 1 to 16 and three payload bytes 0x11, 0x22, 0x33 in a buffer
    whose next byte is 0x44. *)
Definition ev_sample : vscp.vscpEventEx :=
  {| vscp.year := 0; vscp.month := 0; vscp.day := 0;
     vscp.hour := 0; vscp.minute := 0; vscp.second := 0;
     vscp.timestamp := 0x12345678; vscp.head := 0x0060;
     vscp.vscpclass := 10; vscp.vscptype := 6;
     vscp.guid := [1; 2; 3; 4; 5; 6; 7; 8; 9; 10; 11; 12; 13; 14; 15; 16];
     vscp.sizedata := 3;
     vscp.data := [0x11; 0x22; 0x33; 0x44] ++ replicate 475 0 |}.

Definition frame_sample : list Z :=
  [0; 0; 96; 18; 86; 86; 120; 15; 80; 6; 15; 12; 30; 45; 0; 10; 0; 6;
   1; 0; 0; 0; 0; 0; 0; 0; 0; 0; 0; 0; 0; 0; 0; 16; 0; 3; 17; 0; 0;
   68; 0; 0; 0; 0; 0; 0; 0; 0; 0; 134; 200].

(** An event that declares 480 payload bytes. *)
Definition ev_too_large : vscp.vscpEventEx :=
  {| vscp.year := 2020; vscp.month := 1; vscp.day := 1;
     vscp.hour := 0; vscp.minute := 0; vscp.second := 0;
     vscp.timestamp := 0; vscp.head := 0;
     vscp.vscpclass := 10; vscp.vscptype := 6;
     vscp.guid := replicate 16 0xAA;
     vscp.sizedata := 480;
     vscp.data := replicate 479 0 |}.

(** Key texts of 16, 24 and 32 bytes, and an initialization vector. *)
Definition key16_text : string := "A4A86F7D7E119BA3F0CD06881E371B98".
Definition key24_text : string :=
  "A4A86F7D7E119BA3F0CD06881E371B989B33B6D606A863B6".
Definition key32_text : string :=
  "A4A86F7D7E119BA3F0CD06881E371B989B33B6D606A863B633EF529D64544F8E".
Definition key16_bytes : list Z :=
  [164; 168; 111; 125; 126; 17; 155; 163; 240; 205; 6; 136; 30; 55; 27; 152].
Definition key24_bytes : list Z :=
  key16_bytes ++ [155; 51; 182; 214; 6; 168; 99; 182].
Definition key32_bytes : list Z :=
  key24_bytes ++ [51; 239; 82; 157; 100; 84; 79; 142].
Definition iv_example : list Z :=
  [0; 1; 2; 3; 4; 5; 6; 7; 8; 9; 10; 11; 12; 13; 14; 15].

(** The caller's frame before the call, with an empty console and no
    cipher made yet. *)
Definition w_scenario : world :=
  {| frame_obj := frame_scenario; stdout := []; aes_new_calls := [] |}.

Lemma run_scenario :
  makeVscpFrame 479 dt_example 0 (EventEx ev_scenario) = Ok frame_scenario.
Proof. vm_compute. reflexivity. Qed.

Lemma run_sample :
  makeVscpFrame 479 dt_example 0 (EventEx ev_sample) = Ok frame_sample.
Proof. vm_compute. reflexivity. Qed.

Lemma keys_unhexlify :
  binascii.unhexlify key16_text = Ok key16_bytes
  /\ binascii.unhexlify key24_text = Ok key24_bytes
  /\ binascii.unhexlify key32_text = Ok key32_bytes.
Proof. vm_compute. repeat split. Qed.

(** The CRC-CCITT check value of the digits 1 to 9 with start 0xFFFF. *)
Example crc_check_value :
  CRCCCITT.calculate_str CRCCCITT.starting_value_FFFF "123456789" = 0x29B1.
Proof. vm_compute. reflexivity. Qed.

(** ** The theorems at the worked inputs *)

(** The scenario event declares no payload, and its frame has the 51 bytes
    of a 13-byte payload, not the 38 of an empty one. *)
Lemma makeVscpFrame_length_witness :
  py.len frame_scenario = 1 + vscp.VSCP_MULTICAST_PACKET0_HEADER_LENGTH + 13 + 2
  /\ py.len frame_scenario
     <> 1 + vscp.VSCP_MULTICAST_PACKET0_HEADER_LENGTH
        + vscp.sizedata ev_scenario + 2.
Proof.
  split.
  - exact (makeVscpFrame_length 479 dt_example 0 ev_scenario frame_scenario
             run_scenario).
  - vm_compute. discriminate.
Defined.

(** The second GUID byte of the sample event is 2; its frame holds 0 there. *)
Lemma makeVscpFrame_guid_bytes_witness :
  py.getitem (vscp.guid ev_sample) 1 = Ok 2
  /\ py.getitem frame_sample (vscp.VSCP_MULTICAST_PACKET0_POS_VSCP_GUID + 1)
     = Ok 0.
Proof.
  split.
  - vm_compute. reflexivity.
  - apply (makeVscpFrame_guid_bytes 479 dt_example 0 ev_sample frame_sample
             run_sample); [vm_compute; discriminate | lia].
Defined.

(** The second payload byte of the sample event is 0x22; its frame holds 0
    there, and holds at position 3 the byte 0x44 that follows the declared
    payload in the event's buffer. *)
Lemma makeVscpFrame_data_bytes_witness :
  py.getitem (vscp.data ev_sample) 1 = Ok 0x22
  /\ py.getitem frame_sample (vscp.VSCP_MULTICAST_PACKET0_POS_VSCP_DATA + 1)
     = Ok 0
  /\ py.getitem frame_sample (vscp.VSCP_MULTICAST_PACKET0_POS_VSCP_DATA + 3)
     = Ok 0x44.
Proof.
  pose proof (makeVscpFrame_data_bytes 479 dt_example 0 ev_sample frame_sample
                run_sample ltac:(vm_compute; discriminate)) as (_ & Hn & Hz).
  split; [vm_compute; reflexivity |]. split.
  - apply Hz; [lia | vm_compute; discriminate].
  - apply (Hn ltac:(vm_compute; reflexivity)).
Defined.

(** The checksum bytes of the scenario frame are those of 0x7956, the sum
    of the escape text; the CRC of the header bytes [frame[1:36]] of the
    empty-payload event is 0xA230. *)
Lemma makeVscpFrame_crc_bytes_witness :
  py.getitem frame_scenario
    (1 + vscp.VSCP_MULTICAST_PACKET0_HEADER_LENGTH + 13) = Ok 0x79
  /\ py.getitem frame_scenario
       (1 + vscp.VSCP_MULTICAST_PACKET0_HEADER_LENGTH + 13 + 1) = Ok 0x56
  /\ CRCCCITT.calculate_bytes CRCCCITT.starting_value_FFFF
       (py.slice frame_scenario 1
          (vscp.VSCP_MULTICAST_PACKET0_POS_VSCP_DATA
           + vscp.sizedata ev_scenario))
     = 0xA230.
Proof.
  pose proof (makeVscpFrame_crc_bytes 479 dt_example 0 ev_scenario
                frame_scenario run_scenario) as (Hhi & Hlo).
  split; [exact Hhi |]. split; [exact Hlo |].
  vm_compute. reflexivity.
Defined.

(** The timestamp 0x12345678 of the sample event is written 12 56 56 78. *)
Lemma makeVscpFrame_timestamp_bytes_witness :
  py.getitem frame_sample vscp.VSCP_MULTICAST_PACKET0_POS_TIMESTAMP = Ok 0x12
  /\ py.getitem frame_sample (vscp.VSCP_MULTICAST_PACKET0_POS_TIMESTAMP + 1)
     = Ok 0x56
  /\ py.getitem frame_sample (vscp.VSCP_MULTICAST_PACKET0_POS_TIMESTAMP + 2)
     = Ok 0x56
  /\ py.getitem frame_sample (vscp.VSCP_MULTICAST_PACKET0_POS_TIMESTAMP + 3)
     = Ok 0x78.
Proof.
  exact (makeVscpFrame_timestamp_bytes 479 dt_example 0 ev_sample frame_sample
           run_sample ltac:(vm_compute; discriminate)).
Defined.

(** The sample event leaves its date and time zero; with the clock at
    2020-06-15 12:30:45 its frame holds the year 3920 (0x0F50), not 2020
    (0x07E4). *)
Lemma makeVscpFrame_datetime_block_witness :
  datetime_is_zero ev_sample = true
  /\ map (py.getitem frame_sample)
       [vscp.VSCP_MULTICAST_PACKET0_POS_YEAR_MSB;
        vscp.VSCP_MULTICAST_PACKET0_POS_YEAR_LSB;
        vscp.VSCP_MULTICAST_PACKET0_POS_MONTH;
        vscp.VSCP_MULTICAST_PACKET0_POS_DAY;
        vscp.VSCP_MULTICAST_PACKET0_POS_HOUR;
        vscp.VSCP_MULTICAST_PACKET0_POS_MINUTE;
        vscp.VSCP_MULTICAST_PACKET0_POS_SECOND]
     = [Ok 0x0F; Ok 0x50; Ok 6; Ok 15; Ok 12; Ok 30; Ok 45].
Proof.
  split; [vm_compute; reflexivity |].
  exact (makeVscpFrame_datetime_block 479 dt_example 0 ev_sample frame_sample
           run_sample ltac:(vm_compute; discriminate)).
Defined.

(** An event that declares 480 bytes against a maximum of 479 is refused. *)
Lemma makeVscpFrame_data_too_large_witness :
  makeVscpFrame 479 dt_example 0 (EventEx ev_too_large)
  = Raise (ValueError "VSCP event has data size that is greater than allowed.").
Proof.
  apply makeVscpFrame_data_too_large. vm_compute. reflexivity.
Defined.

(** With the identifier of AES192 the cipher is made with the 24-byte
    default key, and the call on the scenario frame raises [TypeError]. *)
Lemma encryptVscpFrame_default_key_no_ciphertext_witness :
  is_aes_scheme vscp.VSCP_ENCRYPTION_AES192 = true
  /\ forall cipher : list Z -> list Z -> list Z -> list Z,
       aes_new_calls
         (fst (encryptVscpFrame key16_text key24_text key32_text cipher
                 w_scenario vscp.VSCP_ENCRYPTION_AES192 iv_example))
       = [(key24_bytes, iv_example)]
       /\ exists msg,
            snd (encryptVscpFrame key16_text key24_text key32_text cipher
                   w_scenario vscp.VSCP_ENCRYPTION_AES192 iv_example)
            = Raise (TypeError msg).
Proof.
  destruct keys_unhexlify as (H16 & H24 & H32).
  split; [reflexivity |]. intros cipher.
  exact (encryptVscpFrame_default_key_no_ciphertext key16_text key24_text
           key32_text cipher key16_bytes key24_bytes key32_bytes w_scenario
           vscp.VSCP_ENCRYPTION_AES192 iv_example H16 H24 H32
           eq_refl eq_refl eq_refl eq_refl eq_refl).
Defined.

(** C6, the claim as stated fails: the 51-byte scenario frame passed with
    the identifier of AES128 has 65 bytes after the call, so the caller's
    frame is not the frame that was passed. *)
Lemma encryptVscpFrame_in_place_counterexample :
  is_aes_scheme vscp.VSCP_ENCRYPTION_AES128 = true
  /\ py.len (frame_obj w_scenario) = 51
  /\ forall cipher : list Z -> list Z -> list Z -> list Z,
       let w' := fst (encryptVscpFrame key16_text key24_text key32_text
                        cipher w_scenario vscp.VSCP_ENCRYPTION_AES128
                        iv_example) in
       py.len (frame_obj w') = 65
       /\ frame_obj w' <> frame_obj w_scenario.
Proof.
  split; [reflexivity |]. split; [reflexivity |].
  intros cipher. vm_compute. split; [reflexivity | discriminate].
Qed.

(** The scenario frame after the call with the identifier of AES128: its 51
    bytes followed by 14 zero bytes. *)
Lemma encryptVscpFrame_pads_in_place_witness :
  is_aes_scheme vscp.VSCP_ENCRYPTION_AES128 = true
  /\ forall cipher : list Z -> list Z -> list Z -> list Z,
       frame_obj (fst (encryptVscpFrame key16_text key24_text key32_text
                         cipher w_scenario vscp.VSCP_ENCRYPTION_AES128
                         iv_example))
       = frame_scenario ++ replicate 14 0.
Proof.
  destruct keys_unhexlify as (H16 & H24 & H32).
  split; [reflexivity |]. intros cipher.
  exact (proj1 (encryptVscpFrame_pads_in_place key16_text key24_text
                  key32_text cipher key16_bytes key24_bytes key32_bytes
                  w_scenario vscp.VSCP_ENCRYPTION_AES128 iv_example
                  H16 H24 H32 eq_refl)).
Defined.



(** ** Further properties of the frame builder *)

Lemma setitem_bytes (l l' : list Z) (i v : Z) :
  Forall is_byte l -> py.setitem l i v = Ok l' -> Forall is_byte l'.
Proof.
  unfold py.setitem. intros Hl H.
  destruct (0 <=? v) eqn:H0; destruct (v <? 256) eqn:H1; simpl in H;
    try discriminate H.
  destruct (py.in_range l i); [| discriminate H].
  injection H as <-. apply Forall_insert; [exact Hl |]. unfold is_byte. lia.
Qed.

(** The two frames of a simulation step: equal lengths and equal bytes
    after the first. *)
Definition same_tail (f1 f2 : list Z) : Prop :=
  length f1 = length f2 /\ py.slice_from f1 1 = py.slice_from f2 1.

Lemma same_tail_setitem (f1 f2 f1' f2' : list Z) (i v : Z) :
  same_tail f1 f2 ->
  py.setitem f1 i v = Ok f1' -> py.setitem f2 i v = Ok f2' ->
  same_tail f1' f2'.
Proof.
  unfold same_tail, py.setitem, py.in_range, py.norm_index, py.len,
    py.slice_from.
  change (Z.to_nat 1) with 1%nat.
  intros [Hlen Htl] H1 H2.
  destruct ((0 <=? v) && (v <? 256)); [| discriminate H1].
  rewrite <- Hlen in H2.
  destruct ((0 <=? (if i <? 0 then i + Z.of_nat (length f1) else i))
            && ((if i <? 0 then i + Z.of_nat (length f1) else i)
                <? Z.of_nat (length f1))); [| discriminate H1].
  injection H1 as <-. injection H2 as <-.
  rewrite !length_insert. split; [exact Hlen |].
  destruct (Z.to_nat (if i <? 0 then i + Z.of_nat (length f1) else i))
    as [| k].
  - destruct f1, f2; simpl in *; rewrite ?drop_0 in *; congruence.
  - destruct f1, f2; simpl in *; rewrite ?drop_0 in *; congruence.
Qed.

Lemma same_tail_frame_crc (f1 f2 : list Z) :
  same_tail f1 f2 -> frame_crc f1 = frame_crc f2.
Proof.
  unfold same_tail, frame_crc, py.slice, py.slice_from. intros [_ Htl].
  rewrite Htl. reflexivity.
Qed.

Lemma same_tail_first_byte (f : list Z) (p1 p2 : Z) (f1 f2 : list Z) :
  py.setitem f 0 p1 = Ok f1 -> py.setitem f 0 p2 = Ok f2 -> same_tail f1 f2.
Proof.
  intros H1 H2.
  apply setitem_inv in H1 as (_ & _ & ->); [| lia].
  apply setitem_inv in H2 as (_ & _ & ->); [| lia].
  unfold same_tail, py.slice_from. rewrite !length_insert.
  split; [reflexivity |]. destruct f; reflexivity.
Qed.

Lemma slice_from_slice_0 (f : list Z) (hi : Z) :
  py.slice_from (py.slice f 0 hi) 1
  = take (Z.to_nat hi - 1) (py.slice_from f 1).
Proof.
  unfold py.slice, py.slice_from. rewrite Z.sub_0_r.
  change (Z.to_nat 0) with 0%nat. rewrite drop_0.
  apply skipn_firstn_comm.
Qed.

Section MakeFrameMore.

Variable VSCP_LEVEL2_MAXDATA : Z.
Variable dt : datetime.datetime.

(** X2. An event whose payload buffer holds no more bytes than [sizedata]
    declares is never turned into a frame: the read of [data[sizedata]] at
    line 115 is out of range. *)
Theorem makeVscpFrame_short_data_raises (ptype : Z) (e : vscp.vscpEventEx)
    (frame : list Z) :
  py.len (vscp.data e) <= vscp.sizedata e ->
  makeVscpFrame VSCP_LEVEL2_MAXDATA dt ptype (EventEx e) <> Ok frame.
Proof.
  intros Hlen H.
  assert (Hn : 0 <= vscp.sizedata e) by (unfold py.len in Hlen; lia).
  open_frame H;
    match goal with
    | E : py.getitem (vscp.data _) (vscp.sizedata _) = Ok _ |- _ =>
        apply getitem_inv in E; [| lia];
        apply lookup_lt_Some in E; lia
    end.
Qed.

(** X3. The fixed header fields of a returned frame: the packet type at
    offset 0, then head, class, type and data size, each in 16 bits with the
    most-significant byte first. *)
Theorem makeVscpFrame_header_fields (ptype : Z) (e : vscp.vscpEventEx)
    (frame : list Z) :
  makeVscpFrame VSCP_LEVEL2_MAXDATA dt ptype (EventEx e) = Ok frame ->
  0 <= vscp.sizedata e ->
  map (py.getitem frame)
    [vscp.VSCP_MULTICAST_PACKET0_POS_PKTTYPE;
     vscp.VSCP_MULTICAST_PACKET0_POS_HEAD_MSB;
     vscp.VSCP_MULTICAST_PACKET0_POS_HEAD_LSB;
     vscp.VSCP_MULTICAST_PACKET0_POS_VSCP_CLASS_MSB;
     vscp.VSCP_MULTICAST_PACKET0_POS_VSCP_CLASS_LSB;
     vscp.VSCP_MULTICAST_PACKET0_POS_VSCP_TYPE_MSB;
     vscp.VSCP_MULTICAST_PACKET0_POS_VSCP_TYPE_LSB;
     vscp.VSCP_MULTICAST_PACKET0_POS_VSCP_SIZE_MSB;
     vscp.VSCP_MULTICAST_PACKET0_POS_VSCP_SIZE_LSB]
  = [Ok ptype;
     Ok (Z.land (Z.shiftr (vscp.head e) 8) 0xff);
     Ok (Z.land (vscp.head e) 0xff);
     Ok (Z.land (Z.shiftr (vscp.vscpclass e) 8) 0xff);
     Ok (Z.land (vscp.vscpclass e) 0xff);
     Ok (Z.land (Z.shiftr (vscp.vscptype e) 8) 0xff);
     Ok (Z.land (vscp.vscptype e) 0xff);
     Ok (Z.land (Z.shiftr (vscp.sizedata e) 8) 0xff);
     Ok (Z.land (vscp.sizedata e) 0xff)].
Proof.
  intros H Hn. open_frame H; cbn [map]; repeat f_equal; read_frame.
Qed.

(** X4. Every element of a returned frame is a byte. *)
Theorem makeVscpFrame_bytes (ptype : Z) (e : vscp.vscpEventEx) (frame : list Z) :
  makeVscpFrame VSCP_LEVEL2_MAXDATA dt ptype (EventEx e) = Ok frame ->
  Forall is_byte frame.
Proof.
  unfold makeVscpFrame, write_datetime. intros H.
  destruct (vscp.sizedata e >? VSCP_LEVEL2_MAXDATA); [discriminate H |].
  cbn [py.for_in] in H.
  destruct (datetime_is_zero e);
    split_binds;
    repeat match goal with
    | H' : Ok _ = Ok _ |- _ => apply Ok_inj in H'; subst
    end;
    match goal with
    | E : py.bytearray _ = Ok ?f |- _ =>
        assert (Forall is_byte f)
          by (apply bytearray_inv in E as (_ & ->);
              apply Forall_replicate; unfold is_byte; lia);
        clear E
    end;
    repeat match goal with
    | E : py.setitem ?l _ _ = Ok ?l', Hl : Forall is_byte ?l |- _ =>
        pose proof (setitem_bytes _ _ _ _ Hl E); clear E
    end;
    unfold py.slice; apply Forall_take, Forall_drop; assumption.
Qed.

(** X5. A packet type that is not a byte is refused with the [ValueError] of
    the bytearray, whatever the event holds. *)
Theorem makeVscpFrame_bad_ptype (ptype : Z) (e : vscp.vscpEventEx) :
  ~ is_byte ptype ->
  vscp.sizedata e <= VSCP_LEVEL2_MAXDATA ->
  0 <= VSCP_LEVEL2_MAXDATA ->
  makeVscpFrame VSCP_LEVEL2_MAXDATA dt ptype (EventEx e)
  = Raise (ValueError "byte must be in range(0, 256)").
Proof.
  unfold is_byte. intros Hp Hn HM. unfold makeVscpFrame.
  destruct (vscp.sizedata e >? VSCP_LEVEL2_MAXDATA) eqn:Hcmp; [lia |].
  unfold py.bytearray. autounfold with layout.
  destruct (1 + 35 + VSCP_LEVEL2_MAXDATA + 2 <? 0) eqn:Hneg; [lia |].
  cbn [bind]. unfold py.setitem at 1.
  destruct ((0 <=? ptype) && (ptype <? 256)) eqn:Hb; [lia | reflexivity].
Qed.

(** X6. The packet type reaches the first byte only: two frames built from
    the same event under two packet types are equal after their first
    byte, checksum included, since the checksum range starts after it. *)
Theorem makeVscpFrame_ptype_first_byte_only (p1 p2 : Z) (e : vscp.vscpEventEx)
    (f1 f2 : list Z) :
  makeVscpFrame VSCP_LEVEL2_MAXDATA dt p1 (EventEx e) = Ok f1 ->
  makeVscpFrame VSCP_LEVEL2_MAXDATA dt p2 (EventEx e) = Ok f2 ->
  py.slice_from f1 1 = py.slice_from f2 1.
Proof.
  unfold makeVscpFrame, write_datetime. intros H1 H2.
  destruct (vscp.sizedata e >? VSCP_LEVEL2_MAXDATA); [discriminate H1 |].
  cbn [py.for_in] in H1, H2.
  destruct (datetime_is_zero e);
    split_binds;
    repeat match goal with
    | H' : Ok _ = Ok _ |- _ => apply Ok_inj in H'; subst
    end;
    repeat match goal with
    | E : ?x = Ok ?a, E' : ?x = Ok ?b |- _ =>
        assert (a = b) by congruence; subst b; clear E'
    end;
    autounfold with layout in *;
    match goal with
    | E : py.setitem ?f 0 p1 = Ok ?a, E' : py.setitem ?f 0 p2 = Ok ?b |- _ =>
        pose proof (same_tail_first_byte _ _ _ _ _ E E'); clear E E'
    end;
    repeat match goal with
    | R : same_tail ?a ?b |- _ =>
        rewrite (same_tail_frame_crc _ _ R) in *
    | R : same_tail ?a ?b,
      E : py.setitem ?a ?i ?v = Ok ?a', E' : py.setitem ?b ?i ?v = Ok ?b' |- _ =>
        pose proof (same_tail_setitem _ _ _ _ _ _ R E E'); clear R E E'
    end;
    match goal with
    | R : same_tail ?a ?b |- _ =>
        destruct R as [_ R]; rewrite !slice_from_slice_0, R; reflexivity
    end.
Qed.

End MakeFrameMore.

Lemma bind_ext {A B : Type} (r : result A) (k k' : A -> result B) :
  (forall a, k a = k' a) -> bind r k = bind r k'.
Proof. intros H. destruct r; simpl; [apply H | reflexivity]. Qed.

(** X7. With an explicit date or time in the event, the clock does not enter
    the result: any two clock readings give the same frame, or the same
    exception. *)
Theorem makeVscpFrame_clock_unused (maxdata : Z) (dt1 dt2 : datetime.datetime)
    (ptype : Z) (e : vscp.vscpEventEx) :
  datetime_is_zero e = false ->
  makeVscpFrame maxdata dt1 ptype (EventEx e)
  = makeVscpFrame maxdata dt2 ptype (EventEx e).
Proof.
  intros Hdate. unfold makeVscpFrame.
  destruct (vscp.sizedata e >? maxdata); [reflexivity |].
  repeat (apply bind_ext; intros ?).
  unfold write_datetime. rewrite Hdate. reflexivity.
Qed.

(** The length of a returned frame. *)
Lemma frame_length_51 (maxdata : Z) (dt : datetime.datetime) (ptype : Z)
    (e : vscp.vscpEventEx) (frame : list Z) :
  makeVscpFrame maxdata dt ptype (EventEx e) = Ok frame ->
  length frame = 51%nat.
Proof.
  unfold makeVscpFrame. intros H.
  destruct (vscp.sizedata e >? maxdata); [discriminate H |].
  split_binds. apply Ok_inj in H. subst frame.
  autounfold with layout in *.
  match goal with
  | E : py.setitem _ (1 + 35 + 13 + 1) _ = Ok _ |- _ =>
      apply setitem_inv in E; [destruct E as (_ & Hlen & ->) | lia]
  end.
  unfold py.slice, py.len in *.
  rewrite length_take, length_drop, length_insert. lia.
Qed.

(** ** Further properties of the encryption wrapper *)

Lemma AES_new_raises (key iv : list Z) (e : exn) :
  Crypto.AES_new key iv = Raise e -> raised_by_unhexlify e = false.
Proof.
  unfold Crypto.AES_new.
  destruct ((py.len key =? 16) || (py.len key =? 24) || (py.len key =? 32));
    [destruct (py.len iv =? 16) |];
    intros H; try discriminate H; injection H as <-; reflexivity.
Qed.

Lemma unhexlify_raises_own (s : string) (e : exn) :
  binascii.unhexlify s = Raise e -> raised_by_unhexlify e = true.
Proof. intros H. destruct (unhexlify_raises _ _ H) as [msg ->]. reflexivity. Qed.

Section EncryptMore.

Variables VSCP_DEFAULT_KEY16 VSCP_DEFAULT_KEY24 VSCP_DEFAULT_KEY32 : string.
Variable AES_CBC_encrypt : forall (key iv plaintext : list Z), list Z.

(** X8. The exception of a call that raises tells what became of the
    caller's frame. An error of [unhexlify] on a key text comes before the
    padding loop and leaves the frame as it was; every other exception, of
    [AES.new] or of [cipher.encrypt], comes after it and leaves the frame
    padded with [(1 - len(frame)) % 16] zero bytes. *)
Theorem encryptVscpFrame_error_and_frame (w : world) (encryption : Z)
    (iv : list Z) (e : exn) :
  snd (encryptVscpFrame VSCP_DEFAULT_KEY16 VSCP_DEFAULT_KEY24
         VSCP_DEFAULT_KEY32 AES_CBC_encrypt w encryption iv) = Raise e ->
  frame_obj (fst (encryptVscpFrame VSCP_DEFAULT_KEY16 VSCP_DEFAULT_KEY24
                    VSCP_DEFAULT_KEY32 AES_CBC_encrypt w encryption iv))
  = if raised_by_unhexlify e then frame_obj w
    else frame_obj w
         ++ replicate (Z.to_nat ((1 - py.len (frame_obj w)) mod 16)) 0.
Proof.
  run_encrypt; intros H; try discriminate H; injection H as <-;
    repeat match goal with
    | E : binascii.unhexlify _ = Raise _ |- _ =>
        rewrite (unhexlify_raises_own _ _ E); clear E
    | E : Crypto.AES_new _ _ = Raise _ |- _ =>
        rewrite (AES_new_raises _ _ _ E); clear E
    end;
    cbn [raised_by_unhexlify]; try reflexivity; apply pad_frame_spec.
Qed.

(** X9. The identifier of no encryption makes the call depend on the
    16-byte default key all the same: line 138 unhexlifies it first. The
    call returns the caller's own bytearray, unpadded, exactly when that
    key text is valid hexadecimal, and raises its error otherwise; the
    frame is untouched in both cases. *)
Theorem encryptVscpFrame_none_needs_key16 (w : world) (iv : list Z) :
  let r := encryptVscpFrame VSCP_DEFAULT_KEY16 VSCP_DEFAULT_KEY24
             VSCP_DEFAULT_KEY32 AES_CBC_encrypt w
             vscp.VSCP_ENCRYPTION_NONE iv in
  frame_obj (fst r) = frame_obj w
  /\ snd r = (do _key <- binascii.unhexlify VSCP_DEFAULT_KEY16 ; Ok RetFrame).
Proof.
  unfold encryptVscpFrame.
  destruct (binascii.unhexlify VSCP_DEFAULT_KEY16); split; reflexivity.
Qed.

(** X10. [encryptVscpFrame] never returns a packet. A call that returns
    is a call with the identifier of no encryption, and what it returns is
    the caller's own bytearray; with every other identifier the call
    raises. *)
Theorem encryptVscpFrame_returns_no_packet (w : world) (encryption : Z)
    (iv : list Z) (v : retval) :
  snd (encryptVscpFrame VSCP_DEFAULT_KEY16 VSCP_DEFAULT_KEY24
         VSCP_DEFAULT_KEY32 AES_CBC_encrypt w encryption iv) = Ok v ->
  encryption = vscp.VSCP_ENCRYPTION_NONE /\ v = RetFrame.
Proof.
  run_encrypt; intros H; cbn in H; try discriminate H;
    injection H as <-; apply Z.eqb_eq in Eid; auto.
Qed.

(** X12. Once a call with an identifier other than that of no encryption
    has gone past the key texts, and so has padded the caller's frame, any
    further call on that frame leaves it as the first call left it: the
    padding loop adds nothing to a frame it has padded. *)
Theorem encryptVscpFrame_second_call_keeps_frame
    (k16 k24 k32 : list Z) (w : world) (enc1 enc2 : Z) (iv1 iv2 : list Z) :
  binascii.unhexlify VSCP_DEFAULT_KEY16 = Ok k16 ->
  binascii.unhexlify VSCP_DEFAULT_KEY24 = Ok k24 ->
  binascii.unhexlify VSCP_DEFAULT_KEY32 = Ok k32 ->
  vscp.VSCP_ENCRYPTION_NONE <> enc1 ->
  let w1 := fst (encryptVscpFrame VSCP_DEFAULT_KEY16 VSCP_DEFAULT_KEY24
                   VSCP_DEFAULT_KEY32 AES_CBC_encrypt w enc1 iv1) in
  frame_obj (fst (encryptVscpFrame VSCP_DEFAULT_KEY16 VSCP_DEFAULT_KEY24
                    VSCP_DEFAULT_KEY32 AES_CBC_encrypt w1 enc2 iv2))
  = frame_obj w1.
Proof.
  intros H16 H24 H32 Hnone w1.
  pose proof (encryptVscpFrame_padded VSCP_DEFAULT_KEY16 VSCP_DEFAULT_KEY24
                VSCP_DEFAULT_KEY32 AES_CBC_encrypt k16 k24 k32 w enc1 iv1
                H16 H24 H32 Hnone) as Hf.
  fold w1 in Hf.
  destruct (encryptVscpFrame_frame_cases VSCP_DEFAULT_KEY16
              VSCP_DEFAULT_KEY24 VSCP_DEFAULT_KEY32 AES_CBC_encrypt
              w1 enc2 iv2) as [H2 | H2]; [exact H2 |].
  rewrite H2, Hf. apply pad_frame_idempotent.
Qed.

(** X13. Encrypting a frame that [makeVscpFrame] returned, with an
    identifier other than that of no encryption and key texts that decode:
    the frame has 51 bytes, so the call appends 14 zero bytes to it, and it
    raises, returning no packet for the frame. *)
Theorem makeVscpFrame_then_encrypt (maxdata : Z) (dt : datetime.datetime)
    (ptype : Z) (e : vscp.vscpEventEx) (k16 k24 k32 : list Z) (w : world)
    (encryption : Z) (iv : list Z) :
  makeVscpFrame maxdata dt ptype (EventEx e) = Ok (frame_obj w) ->
  binascii.unhexlify VSCP_DEFAULT_KEY16 = Ok k16 ->
  binascii.unhexlify VSCP_DEFAULT_KEY24 = Ok k24 ->
  binascii.unhexlify VSCP_DEFAULT_KEY32 = Ok k32 ->
  vscp.VSCP_ENCRYPTION_NONE <> encryption ->
  frame_obj (fst (encryptVscpFrame VSCP_DEFAULT_KEY16 VSCP_DEFAULT_KEY24
                    VSCP_DEFAULT_KEY32 AES_CBC_encrypt w encryption iv))
  = frame_obj w ++ replicate 14 0
  /\ exists err,
       snd (encryptVscpFrame VSCP_DEFAULT_KEY16 VSCP_DEFAULT_KEY24
              VSCP_DEFAULT_KEY32 AES_CBC_encrypt w encryption iv)
       = Raise err.
Proof.
  intros Hrun H16 H24 H32 Hnone.
  pose proof (frame_length_51 _ _ _ _ _ Hrun) as Hlen.
  split.
  - rewrite (encryptVscpFrame_padded VSCP_DEFAULT_KEY16 VSCP_DEFAULT_KEY24
               VSCP_DEFAULT_KEY32 AES_CBC_encrypt k16 k24 k32 w encryption iv
               H16 H24 H32 Hnone).
    rewrite pad_frame_spec. unfold py.len. rewrite Hlen. reflexivity.
  - destruct (snd (encryptVscpFrame VSCP_DEFAULT_KEY16 VSCP_DEFAULT_KEY24
                     VSCP_DEFAULT_KEY32 AES_CBC_encrypt w encryption iv))
      as [v | err] eqn:Hres; [| eauto].
    revert Hres. run_encrypt; intros H; cbn in H; try discriminate H;
      apply Z.eqb_eq in Eid; congruence.
Qed.

End EncryptMore.

(** ** The further properties at worked inputs *)

(** The scenario event with a payload buffer of exactly the declared size,
    none. *)
Definition ev_exact : vscp.vscpEventEx :=
  {| vscp.year := 2020; vscp.month := 1; vscp.day := 1;
     vscp.hour := 0; vscp.minute := 0; vscp.second := 0;
     vscp.timestamp := 0; vscp.head := 0;
     vscp.vscpclass := 10; vscp.vscptype := 6;
     vscp.guid := replicate 16 0xAA;
     vscp.sizedata := 0;
     vscp.data := [] |}.

(** Another clock reading: 1999-12-31 23:59:59 UTC. *)
Definition dt_other : datetime.datetime :=
  {| datetime.year := 1999; datetime.month := 12; datetime.day := 31;
     datetime.hour := 23; datetime.minute := 59; datetime.second := 59 |}.

(** A stand-in for the block cipher, which no call reaches. *)
Definition keep_length_cipher (key iv plaintext : list Z) : list Z :=
  plaintext.

Lemma run_sample_ptype_1 :
  makeVscpFrame 479 dt_example 1 (EventEx ev_sample)
  = Ok (1 :: py.slice_from frame_sample 1).
Proof. vm_compute. reflexivity. Qed.

Lemma ev_sample_well_formed : well_formed_input 479 dt_example 0 ev_sample.
Proof.
  split; unfold is_byte; simpl;
    repeat match goal with
    | |- _ /\ _ => split
    | |- Forall _ (replicate _ _) => apply Forall_replicate
    | |- Forall _ _ => constructor
    end; try lia; try reflexivity.
Qed.

Lemma makeVscpFrame_accepts_witness :
  exists frame, makeVscpFrame 479 dt_example 0 (EventEx ev_sample) = Ok frame.
Proof.
  exact (makeVscpFrame_accepts 479 dt_example 0 ev_sample
           ev_sample_well_formed).
Defined.

Lemma makeVscpFrame_short_data_raises_witness :
  py.len (vscp.data ev_exact) <= vscp.sizedata ev_exact
  /\ makeVscpFrame 479 dt_example 0 (EventEx ev_exact) <> Ok frame_scenario.
Proof.
  split; [vm_compute; discriminate |].
  apply makeVscpFrame_short_data_raises. vm_compute. discriminate.
Defined.

Lemma makeVscpFrame_header_fields_witness :
  map (py.getitem frame_sample) [0; 1; 2; 14; 15; 16; 17; 34; 35]
  = [Ok 0; Ok 0; Ok 0x60; Ok 0; Ok 10; Ok 0; Ok 6; Ok 0; Ok 3].
Proof.
  exact (makeVscpFrame_header_fields 479 dt_example 0 ev_sample frame_sample
           run_sample ltac:(vm_compute; discriminate)).
Defined.

Lemma makeVscpFrame_bytes_witness : Forall is_byte frame_sample.
Proof.
  exact (makeVscpFrame_bytes 479 dt_example 0 ev_sample frame_sample
           run_sample).
Defined.

Lemma makeVscpFrame_bad_ptype_witness :
  makeVscpFrame 479 dt_example 256 (EventEx ev_scenario)
  = Raise (ValueError "byte must be in range(0, 256)").
Proof.
  apply makeVscpFrame_bad_ptype;
    [unfold is_byte; lia | vm_compute; discriminate | lia].
Defined.

Lemma makeVscpFrame_ptype_first_byte_only_witness :
  py.slice_from frame_sample 1
  = py.slice_from (1 :: py.slice_from frame_sample 1) 1.
Proof.
  exact (makeVscpFrame_ptype_first_byte_only 479 dt_example 0 1 ev_sample
           frame_sample (1 :: py.slice_from frame_sample 1)
           run_sample run_sample_ptype_1).
Defined.

Lemma makeVscpFrame_clock_unused_witness :
  makeVscpFrame 479 dt_example 0 (EventEx ev_scenario)
  = makeVscpFrame 479 dt_other 0 (EventEx ev_scenario).
Proof.
  apply makeVscpFrame_clock_unused. vm_compute. reflexivity.
Defined.

(** The call with the identifier of AES192 on the scenario frame raises
    after the padding, and leaves the frame padded; with a 24-byte key text
    that is not hexadecimal it raises before, and leaves the frame as it
    was. *)
Lemma encryptVscpFrame_error_and_frame_witness :
  frame_obj
    (fst (encryptVscpFrame key16_text key24_text key32_text
            keep_length_cipher w_scenario vscp.VSCP_ENCRYPTION_AES192
            iv_example))
  = frame_scenario ++ replicate 14 0
  /\ frame_obj
       (fst (encryptVscpFrame key16_text "not hex!" key32_text
               keep_length_cipher w_scenario vscp.VSCP_ENCRYPTION_AES192
               iv_example))
     = frame_scenario.
Proof.
  split.
  - exact (encryptVscpFrame_error_and_frame key16_text key24_text key32_text
             keep_length_cipher w_scenario vscp.VSCP_ENCRYPTION_AES192
             iv_example
             (TypeError "Object type <class 'str'> cannot be passed to C code")
             eq_refl).
  - exact (encryptVscpFrame_error_and_frame key16_text "not hex!" key32_text
             keep_length_cipher w_scenario vscp.VSCP_ENCRYPTION_AES192
             iv_example (BinasciiError "Non-hexadecimal digit found")
             eq_refl).
Defined.

Lemma encryptVscpFrame_returns_no_packet_witness :
  snd (encryptVscpFrame key16_text key24_text key32_text keep_length_cipher
         w_scenario vscp.VSCP_ENCRYPTION_NONE iv_example) = Ok RetFrame
  /\ vscp.VSCP_ENCRYPTION_NONE = vscp.VSCP_ENCRYPTION_NONE /\ RetFrame = RetFrame.
Proof.
  assert (H : snd (encryptVscpFrame key16_text key24_text key32_text
                     keep_length_cipher w_scenario
                     vscp.VSCP_ENCRYPTION_NONE iv_example) = Ok RetFrame)
    by (vm_compute; reflexivity).
  split; [exact H |].
  exact (encryptVscpFrame_returns_no_packet _ _ _ _ _ _ _ _ H).
Defined.

(** The scenario frame has 65 bytes after a first call with the identifier
    of AES128, and the same 65 bytes after a second with that of AES256. *)
Lemma encryptVscpFrame_second_call_keeps_frame_witness :
  let w1 := fst (encryptVscpFrame key16_text key24_text key32_text
                   keep_length_cipher w_scenario
                   vscp.VSCP_ENCRYPTION_AES128 iv_example) in
  py.len (frame_obj w1) = 65
  /\ frame_obj (fst (encryptVscpFrame key16_text key24_text key32_text
                       keep_length_cipher w1 vscp.VSCP_ENCRYPTION_AES256
                       iv_example))
     = frame_obj w1.
Proof.
  destruct keys_unhexlify as (H16 & H24 & H32).
  split; [vm_compute; reflexivity |].
  exact (encryptVscpFrame_second_call_keeps_frame key16_text key24_text
           key32_text keep_length_cipher key16_bytes key24_bytes key32_bytes
           w_scenario vscp.VSCP_ENCRYPTION_AES128 vscp.VSCP_ENCRYPTION_AES256
           iv_example iv_example H16 H24 H32
           ltac:(vm_compute; discriminate)).
Defined.

Lemma makeVscpFrame_then_encrypt_witness :
  frame_obj (fst (encryptVscpFrame key16_text key24_text key32_text
                    keep_length_cipher w_scenario
                    vscp.VSCP_ENCRYPTION_AES128 iv_example))
  = frame_scenario ++ replicate 14 0
  /\ exists err,
       snd (encryptVscpFrame key16_text key24_text key32_text
              keep_length_cipher w_scenario vscp.VSCP_ENCRYPTION_AES128
              iv_example)
       = Raise err.
Proof.
  destruct keys_unhexlify as (H16 & H24 & H32).
  exact (makeVscpFrame_then_encrypt key16_text key24_text key32_text
           keep_length_cipher 479 dt_example 0 ev_scenario key16_bytes
           key24_bytes key32_bytes w_scenario vscp.VSCP_ENCRYPTION_AES128
           iv_example run_scenario H16 H24 H32
           ltac:(vm_compute; discriminate)).
Defined.
